(** * JPEG2PDF: a shallow embedding of [jpeg2pdf.py]

    The program converts image files to JPEG and combines them into a PDF
    file.  This development embeds the parts of the script that carry its
    logic:

    - [parse_page_number_formatting_string] (the page numbering mini-language),
    - [process_image] (the arguments handed to Pillow's [Image.save]),
    - the main program: option checking, the image-processing loop and the
      edits made to the document root with pikepdf.

    Pillow, img2pdf, pikepdf and the file system are collaborators of the
    script; they are the fields of the class [Collaborators], and the module
    [Demo] gives one small instance in which the program can be run. *)

From Stdlib Require Import ZArith Ascii String List Lia Bool.
From Stdlib Require Import DecimalString DecimalPos DecimalN.
From stdpp Require Import base option gmap strings list.

Local Open Scope string_scope.
Local Open Scope list_scope.
Local Open Scope Z_scope.

(** ** Exceptions

    A computation either returns a value or raises an exception. *)

Inductive result (E A : Type) : Type :=
| Return (a : A)
| Raise (e : E).
Arguments Return {E A} a.
Arguments Raise {E A} e.

Definition bind {E A B} (r : result E A) (k : A -> result E B) : result E B :=
  match r with
  | Return a => k a
  | Raise e => Raise e
  end.

Notation "'try' x <- r 'in' k" := (bind r (fun x => k))
  (at level 10, x name, r at level 100, k at level 200).

Definition returns {E A} (r : result E A) : bool :=
  match r with Return _ => true | Raise _ => false end.

(** ** The Python built-ins the script relies on *)

Module Py.

(** [len(s)] *)
Definition len (s : string) : Z := Z.of_nat (String.length s).

(** [s[:k]], where [k] may be [None] (the whole string) or negative
    (counted from the end). *)
Definition slice_to (s : string) (k : option Z) : string :=
  match k with
  | None => s
  | Some k =>
      if k <? 0 then substring 0 (Z.to_nat (Z.max 0 (len s + k))) s
      else substring 0 (Z.to_nat k) s
  end.

(** [c in s] for a character [c]. *)
Fixpoint contains (c : ascii) (s : string) : bool :=
  match s with
  | EmptyString => false
  | String d s' => Ascii.eqb d c || contains c s'
  end.

(** [s.find(c) == -1] for a character [c]: [find] returns the lowest index
    where [c] occurs, -1 when there is none. *)
Fixpoint find_from (c : ascii) (s : string) (i : Z) : Z :=
  match s with
  | EmptyString => -1
  | String d s' => if Ascii.eqb d c then i else find_from c s' (i + 1)
  end.

Definition find (s : string) (c : ascii) : Z := find_from c s 0.

(** [s.rfind(c)]: the highest index where [c] occurs, -1 when there is
    none. *)
Fixpoint rfind_from (c : ascii) (s : string) (i last : Z) : Z :=
  match s with
  | EmptyString => last
  | String d s' => rfind_from c s' (i + 1) (if Ascii.eqb d c then i else last)
  end.

Definition rfind (s : string) (c : ascii) : Z := rfind_from c s 0 (-1).

(** [s[k:]] for [0 <= k]. *)
Definition slice_from (s : string) (k : Z) : string :=
  substring (Z.to_nat k) (String.length s - Z.to_nat k) s.

(** [os.path.splitext] of [posixpath], which the script applies to the
    names of the input files (line 343): the extension starts at the last
    full stop of the last path component, leading full stops of that
    component apart. *)
Fixpoint skip_leading_dots (fuel : nat) (p : string) (filenameIndex dotIndex : Z)
  : bool :=
  match fuel with
  | O => false
  | S fuel' =>
      if filenameIndex <? dotIndex then
        match String.get (Z.to_nat filenameIndex) p with
        | Some "."%char => skip_leading_dots fuel' p (filenameIndex + 1) dotIndex
        | _ => true
        end
      else false
  end.

Definition splitext (p : string) : string * string :=
  let sepIndex := rfind p "/" in
  let dotIndex := rfind p "." in
  if (sepIndex <? dotIndex)
     && skip_leading_dots (Z.to_nat (dotIndex - sepIndex)) p (sepIndex + 1) dotIndex
  then (slice_to p (Some dotIndex), slice_from p dotIndex)
  else (p, "").

(** [s.upper()] on ASCII letters. *)
Definition upper_char (c : ascii) : ascii :=
  let n := nat_of_ascii c in
  if (97 <=? n)%nat && (n <=? 122)%nat then ascii_of_nat (n - 32) else c.

Fixpoint upper (s : string) : string :=
  match s with
  | EmptyString => EmptyString
  | String c s' => String (upper_char c) (upper s')
  end.

(** Truth value of a string and of an optional string ([None] and the empty
    string are false). *)
Definition truthy (s : string) : bool :=
  match s with EmptyString => false | _ => true end.

Definition truthy_opt (o : option string) : bool :=
  match o with Some s => truthy s | None => false end.

End Py.

(** ** [parse_page_number_formatting_string] (lines 110-184) *)

Module Parser.

(** The three [ValueError]s the function raises. *)
Inductive ValueError : Type :=
| only_one_style            (* lines 159-160 *)
| invalid_style (char : ascii)   (* line 166 *)
| no_suffixes.              (* lines 180-181 *)

Definition message (e : ValueError) : string :=
  match e with
  | only_one_style =>
      "only one page numbering style may be specified in the formatting string"
  | invalid_style char => "invalid formatting style %" +:+ String char ""
  | no_suffixes => "no suffixes are permitted in the page formatting string"
  end.

(** The local variables the loop updates (lines 134-139). *)
Record locals : Type := Locals {
  style : option string;
  page_style_pos : option Z;
  percent_char_read : bool
}.

Definition initial : locals :=
  {| style := None; page_style_pos := None; percent_char_read := false |}.

(** [char in ['D', 'R', 'r', 'A', 'a']] (line 163) *)
Definition permitted (char : ascii) : bool :=
  existsb (Ascii.eqb char) ["D"; "R"; "r"; "A"; "a"]%char.

(** One iteration of the loop body (lines 143-172) at index [i]. *)
Definition body (i : Z) (char : ascii) (l : locals) : result ValueError locals :=
  if Ascii.eqb char "%" && negb (percent_char_read l) then
    Return {| style := style l; page_style_pos := page_style_pos l;
              percent_char_read := true |}
  else if percent_char_read l then
    try style' <-
      (if Ascii.eqb char "%" then Return (style l)
       else if bool_decide (style l <> None) then Raise only_one_style
       else if permitted char then Return (Some (String "/" (String char "")))
       else Raise (invalid_style char)) in
    Return {| style := style';
              page_style_pos :=
                (if bool_decide (style' <> None) then Some (i - 1)
                 else page_style_pos l);
              percent_char_read := false |}
  else Return l.

(** [for i in range(len(page_format))], started at index [i] on the
    characters that remain. *)
Fixpoint loop (rest : string) (i : Z) (l : locals) : result ValueError locals :=
  match rest with
  | EmptyString => Return l
  | String char rest' =>
      try l' <- body i char l in
      loop rest' (i + 1) l'
  end.

Definition parse_page_number_formatting_string (page_format : string)
  : result ValueError (string * option string) :=
  try l <- loop page_format 0 initial in
  let prefix := Py.slice_to page_format (page_style_pos l) in
  if bool_decide (page_style_pos l <> None)
     && bool_decide (page_style_pos l <> Some (Py.len page_format - 2))
  then Raise no_suffixes
  else Return (prefix, style l).

(** Text in which every [%] belongs to a [%%] pair. *)
Fixpoint escaped_only (s : string) : bool :=
  match s with
  | EmptyString => true
  | String c s' =>
      if Ascii.eqb c "%" then
        match s' with
        | EmptyString => false
        | String d s'' => Ascii.eqb d "%" && escaped_only s''
        end
      else escaped_only s'
  end.

(** The number of [%] characters at the end of the text.  A [%] appended to
    text that ends in an even number of them is unescaped. *)
Fixpoint all_percent (s : string) : bool :=
  match s with
  | EmptyString => true
  | String c s' => Ascii.eqb c "%" && all_percent s'
  end.

Fixpoint trailing_percents (s : string) : nat :=
  match s with
  | EmptyString => O
  | String c s' =>
      if Ascii.eqb c "%" && all_percent s' then S (String.length s')
      else trailing_percents s'
  end.

End Parser.

(** ** Values and collaborators of the main program *)

(** Python objects that travel through [image.info] and the [quality]
    argument. *)
#[warnings="-register-all"]
Inductive pyobj : Type :=
| PyInt (n : Z)
| PyFloat (numerator denominator : Z)
| PyStr (s : string)
| PyTuple (items : list pyobj).

(** A Pillow image, as far as the script looks at it. *)
Record Image : Type := {
  im_format : string;               (* image.format *)
  im_mode : string;                 (* image.mode *)
  im_info : gmap string pyobj       (* image.info *)
}.

(** The arguments of the [image.save] call (lines 224-229). *)
Record save_options : Type := {
  save_fp : string;
  save_optimize : bool;
  save_quality : Z;
  save_jfif_density : pyobj;
  save_jfif_unit : pyobj;
  save_dpi : pyobj
}.

(** pikepdf objects. *)
#[warnings="-register-all"]
Inductive pdfobj : Type :=
| PdfInt (n : Z)
| PdfReal (numerator denominator : Z)
| PdfName (name : string)
| PdfString (s : string)
| PdfArray (items : list pdfobj)
| PdfDict (entries : gmap string pdfobj).

Record Pdf : Type := {
  Root : gmap string pdfobj;              (* pdf.Root *)
  pages : list (gmap string pdfobj)       (* pdf.pages *)
}.

(** [img2pdf.PageMode] *)
Inductive PageMode : Type := PageMode_none | PageMode_thumbs.

Inductive exn : Type :=
| ValueError (msg : string)
| FileNotFoundError
| UnidentifiedImageError
| PermissionError
| OSError (msg : string)
| KeyError (key : string)
| IndexError
| TypeError.

(** What the program does that can be seen from outside. *)
Inductive event : Type :=
| stdout (line : string)
| stderr (line : string)
| img2pdf_convert_called (image_files : list string) (author title : string)
    (viewer_panes : PageMode)
| pdf_save_called (pdf : Pdf) (path : string).

(** How a run ends: [quit()], an exception nobody catches, or the end of the
    script. *)
Inductive termination : Type :=
| quit
| uncaught (e : exn)
| finished.

Record outcome : Type := {
  trace : list event;
  how : termination
}.

(** The module-level variables (lines 11-16). *)
Record Globals : Type := {
  DEBUG : bool;
  jpeg_compression_quality : Z;
  recompress_all_jpegs : bool
}.

Definition module_globals : Globals :=
  {| DEBUG := true; jpeg_compression_quality := 75; recompress_all_jpegs := false |}.

(** The namespace returned by [_parse_arguments] (lines 47-107), with
    [sys.argv[0]]'s base name.  [nargs=1] lists are given by their only
    element, [append_const] lists are empty when the option is absent. *)
Record Args : Type := {
  command_filename : string;
  input_files : list string;
  output_file : string;
  author : option string;
  title : option string;
  quality : option string;
  magnification : list string;
  page_mode : list string;
  page_numbering : option string;
  first_page_number : option string
}.

(** Pillow, img2pdf, pikepdf, the file system and [int()]. *)
Class Collaborators : Type := {
  FS : Type;                                          (* file system states *)
  pdf_data : Type;                                    (* bytes of a document *)
  int_of_str : string -> option Z;                    (* int(s); None: ValueError *)
  Image_open : FS -> string -> result exn Image;      (* PIL.Image.open *)
  Image_convert : Image -> string -> Image;           (* image.convert(mode=...) *)
  Image_save :                                        (* image.save, which *)
    FS -> Image -> save_options -> result exn FS;     (* raises for some modes *)
  getsize : FS -> string -> Z;                        (* os.path.getsize *)
  img2pdf_convert :
    FS -> list string -> string -> string -> PageMode -> pdf_data;
  pikepdf_open : pdf_data -> Pdf;
  pdf_save : FS -> Pdf -> string -> result exn FS     (* pdf.save *)
}.

(** More built-ins. *)
Module Fmt.

(** [str(n)] *)
Definition str (n : Z) : string := NilZero.string_of_int (Z.to_int n).

Fixpoint zeros (n : nat) : string :=
  match n with
  | O => ""
  | S n' => String "0" (zeros n')
  end.

(** ['{:0Wd}'.format(n)]: the sign first, then zeros up to width [W]. *)
Definition zero_padded (width : Z) (n : Z) : string :=
  let sign := if n <? 0 then "-" else "" in
  let digits := str (Z.abs n) in
  sign +:+ zeros (Z.to_nat (width - Py.len sign - Py.len digits)) +:+ digits.

(** [os.path.join(a, b)] of [posixpath]. *)
Definition ends_with_slash (a : string) : bool :=
  match String.get (String.length a - 1) a with
  | Some c => Ascii.eqb c "/"
  | None => false
  end.

Definition join (a b : string) : string :=
  match b with
  | String "/" _ => b
  | _ => if negb (Py.truthy a) || ends_with_slash a then a +:+ b
         else a +:+ "/" +:+ b
  end.

End Fmt.

(** ** [process_image] (lines 187-229) *)

Section Program.

Context `{C : Collaborators}.

(** [type(quality) is not int or quality not in range(1,101)] (line 197) *)
Definition invalid_quality (quality : pyobj) : bool :=
  match quality with
  | PyInt q => negb ((1 <=? q) && (q <? 101))
  | _ => true
  end.

Definition quality_message : string :=
  "JPEG compression quality must be an integer between 1 and 100 (1=worst, 100=best)".

(** The exception of lines 198-199. *)
Definition invalid_quality_error : exn := ValueError quality_message.

(** The density of the original image and its unit (lines 203-212).  A
    [KeyError] leaves the variables as they are at that point. *)
Definition image_density (image : Image) : pyobj * pyobj :=
  let default := (PyTuple [PyInt 72; PyInt 72], PyInt 1) in
  match im_info image !! "dpi" with
  | Some dpi => (dpi, PyInt 1)
  | None =>
      if String.eqb (Py.upper (im_format image)) "JPEG" then
        match im_info image !! "jfif_density" with
        | None => default
        | Some density =>
            match im_info image !! "jfif_unit" with
            | None => (density, PyInt 1)
            | Some unit => (density, unit)
            end
        end
      else default
  end.

(** Palette and greyscale images become RGB (lines 218-219). *)
Definition to_true_colour (image : Image) : Image :=
  if existsb (String.eqb (im_mode image)) ["1"; "L"; "P"]
  then Image_convert image "RGB"
  else image.

(** The keyword arguments of [image.save] (lines 224-229).  The function's
    own [quality] is in scope there. *)
Definition save_call (g : Globals) (image : Image) (output_filepath : string)
    (quality : pyobj) : save_options :=
  let '(density, unit) := image_density image in
  {| save_fp := output_filepath;
     save_optimize := true;
     save_quality := jpeg_compression_quality g;
     save_jfif_density := density;
     save_jfif_unit := unit;
     save_dpi := density |}.

Definition process_image (g : Globals) (fs : FS)
    (input_filepath output_filepath : string) (quality : pyobj)
  : result exn FS :=
  if invalid_quality quality then Raise (ValueError quality_message)
  else
    try image <- Image_open fs input_filepath in
    Image_save fs (to_true_colour image)
      (save_call g image output_filepath quality).

(** ** The main program (lines 240-473) *)

(** Lines 246-248, from [args.output_file[0]]. *)
Definition pdf_output_filepath (output_file : string) : string :=
  if Py.find output_file "." =? -1
  then output_file +:+ ".pdf"
  else output_file.

Definition error_message_prefix (args : Args) : string :=
  command_filename args +:+ ": error: ".

(** What the option checks of lines 250-317 leave behind. *)
Record settings : Type := {
  globals : Globals;
  the_magnification : option string;
  the_page_mode : PageMode;
  the_author : string;
  the_title : string;
  page_numbering_prefix : option string;
  page_numbering_style : option string;
  first_page : Z
}.

(** Lines 252-260. *)
Definition check_quality (args : Args) : result (list event) Globals :=
  let failed :=
    [stderr (error_message_prefix args
             +:+ "-q/--quality argument must be an integer value between 1 and 100")] in
  if Py.truthy_opt (quality args) then
    match int_of_str (default "" (quality args)) with
    | None => Raise failed
    | Some q =>
        if negb ((1 <=? q) && (q <? 101)) then Raise failed
        else Return {| DEBUG := DEBUG module_globals;
                       jpeg_compression_quality := q;
                       recompress_all_jpegs := recompress_all_jpegs module_globals |}
    end
  else Return module_globals.

(** Lines 265-274. *)
Definition check_magnification (args : Args) : result (list event) (option string) :=
  match magnification args with
  | [] => Return None
  | [m] => Return (Some m)
  | _ => Raise [stderr (error_message_prefix args
                        +:+ "only one magnification setting can be specified")]
  end.

(** Lines 277-287. *)
Definition check_page_mode (args : Args) : result (list event) PageMode :=
  match page_mode args with
  | [] => Return PageMode_none
  | [m] => Return (if String.eqb m "UseThumbs" then PageMode_thumbs
                   else PageMode_none)
  | _ => Raise [stderr (error_message_prefix args
                        +:+ "only one page mode setting can be specified")]
  end.

(** Lines 290-293. *)
Definition document_property (value : option string) : string :=
  if Py.truthy_opt value then default "" value else "".

(** Lines 296-304. *)
Definition check_page_numbering (args : Args)
  : result (list event) (option string * option string) :=
  match page_numbering args with
  | None => Return (None, None)
  | Some page_format =>
      match Parser.parse_page_number_formatting_string page_format with
      | Return (prefix, style) => Return (Some prefix, style)
      | Raise ex => Raise [stdout (error_message_prefix args +:+ Parser.message ex)]
      end
  end.

(** Lines 308-317. *)
Definition check_first_page (args : Args) : result (list event) Z :=
  let failed :=
    [stderr (error_message_prefix args
             +:+ "--first-page-number argument must be a positive integer value")] in
  if Py.truthy_opt (first_page_number args) then
    match int_of_str (default "" (first_page_number args)) with
    | None => Raise failed
    | Some n => if n <? 1 then Raise failed else Return n
    end
  else Return 1.

Definition check_options (args : Args) : result (list event) settings :=
  try g <- check_quality args in
  try m <- check_magnification args in
  try pm <- check_page_mode args in
  try numbering <- check_page_numbering args in
  try first <- check_first_page args in
  Return {| globals := g;
            the_magnification := m;
            the_page_mode := pm;
            the_author := document_property (author args);
            the_title := document_property (title args);
            page_numbering_prefix := fst numbering;
            page_numbering_style := snd numbering;
            first_page := first |}.

(** Lines 321-323 and 345-347: the name of the recompressed file. *)
Definition temp_image_filename_index_length (args : Args) : Z :=
  Z.max 4 (Py.len (Fmt.str (Z.of_nat (List.length (input_files args))))).

Definition temp_output_file (temp_dir : string) (index_length : Z)
    (input_file_counter : Z) : string :=
  Fmt.join temp_dir
    ("page" +:+ Fmt.zero_padded index_length input_file_counter +:+ ".jpg").

(** *** The image-processing loop (lines 330-380) *)

Record loop_state : Type := {
  fs : FS;
  image_files : list string;
  input_file_counter : Z;
  printed : list event
}.

(** The test of lines 361-364, evaluated once the recompressed file has
    been written. *)
Definition keep_original (g : Globals) (image : Image) (fs' : FS)
    (input_file output_file : string) : bool :=
  String.eqb (Py.upper (im_format image)) "JPEG"
  && negb (recompress_all_jpegs g)
  && (getsize fs' input_file <=? getsize fs' output_file).

(** Lines 361-368: the path appended to [image_files]. *)
Definition chosen_file (g : Globals) (image : Image) (fs' : FS)
    (input_file output_file : string) : string :=
  if keep_original g image fs' input_file output_file
  then input_file
  else output_file.

(** The two [except] clauses (lines 373-380); any other exception leaves
    the loop. *)
Definition handle (e : exn) (input_file : string) (st : loop_state)
  : result (list event * exn) loop_state :=
  match e with
  | FileNotFoundError =>
      Return {| fs := fs st; image_files := image_files st;
                input_file_counter := input_file_counter st;
                printed := printed st
                  ++ [stderr ("Unable to open " +:+ input_file +:+ ".")] |}
  | UnidentifiedImageError =>
      Return {| fs := fs st; image_files := image_files st;
                input_file_counter := input_file_counter st;
                printed := printed st
                  ++ [stderr (input_file +:+ " is either not an image file or the file "
                              +:+ "is corrupted, so it will not be added to the PDF file.")] |}
  | _ => Raise (printed st, e)
  end.

(** One pass through the body of the [for] loop (lines 339-380). *)
Definition iteration (g : Globals) (temp_dir : string) (index_length : Z)
    (input_file : string) (st : loop_state)
  : result (list event * exn) loop_state :=
  match Image_open (fs st) input_file with
  | Raise e => handle e input_file st
  | Return image =>
      let output_file :=
        temp_output_file temp_dir index_length (input_file_counter st) in
      let st1 :=
        {| fs := fs st; image_files := image_files st;
           input_file_counter := input_file_counter st;
           printed := printed st
             ++ [stdout (if DEBUG g
                         then "Processing " +:+ input_file +:+ " and saving as "
                              +:+ output_file +:+ "..."
                         else "Processing " +:+ input_file +:+ "...")] |} in
      match process_image g (fs st) input_file output_file
              (PyInt (jpeg_compression_quality g)) with
      | Raise e => handle e input_file st1
      | Return fs' =>
          Return {| fs := fs';
                    image_files := image_files st1
                      ++ [chosen_file g image fs' input_file output_file];
                    input_file_counter := input_file_counter st1 + 1;
                    printed := printed st1 |}
      end
  end.

Fixpoint process_files (g : Globals) (temp_dir : string) (index_length : Z)
    (files : list string) (st : loop_state)
  : result (list event * exn) loop_state :=
  match files with
  | [] => Return st
  | input_file :: files' =>
      try st' <- iteration g temp_dir index_length input_file st in
      process_files g temp_dir index_length files' st'
  end.

(** Lines 330-337: the state in which the loop starts. *)
Definition loop_start (g : Globals) (temp_dir : string) (fs0 : FS) : loop_state :=
  {| fs := fs0; image_files := []; input_file_counter := 1;
     printed := if DEBUG g
                then [stdout ("Creating temporary directory " +:+ temp_dir +:+ "...")]
                else [] |}.

(** *** Additional processing on the PDF file (lines 421-465) *)

(** [pdf.pages[page_to_open]['/MediaBox'][k]] (lines 424-425) *)
Definition media_box (pdf : Pdf) (page_to_open k : nat) : result exn pdfobj :=
  match pages pdf !! page_to_open with
  | None => Raise IndexError
  | Some page =>
      match page !! "/MediaBox" with
      | None => Raise (KeyError "/MediaBox")
      | Some (PdfArray box) =>
          match box !! k with
          | None => Raise IndexError
          | Some coordinate => Return coordinate
          end
      | Some _ => Raise TypeError
      end
  end.

(** Lines 432-438. *)
Definition page_label (prefix style : option string) (first_page : Z)
  : gmap string pdfobj :=
  let page_label : gmap string pdfobj := ∅ in
  let page_label :=
    if Py.truthy_opt prefix
    then <["/P" := PdfString (default "" prefix)]> page_label else page_label in
  let page_label :=
    if Py.truthy_opt style
    then <["/S" := PdfName (default "" style)]> page_label else page_label in
  let page_label :=
    if 1 <? first_page
    then <["/St" := PdfInt first_page]> page_label else page_label in
  page_label.

(** Line 439: the value stored under [/PageLabels]. *)
Definition page_labels (prefix style : option string) (first_page : Z) : pdfobj :=
  PdfDict {[ "/Nums" := PdfArray [PdfInt 0; PdfDict (page_label prefix style first_page)] ]}.

(** Lines 448-462. *)
Definition openaction_array (magnification : string) (page_to_open : Z)
    (page_to_open_height : pdfobj) : list pdfobj :=
  let magnification_name := PdfName ("/" +:+ magnification) in
  let openaction_array := [PdfInt page_to_open; magnification_name] in
  if String.eqb magnification "FitH" then openaction_array ++ [page_to_open_height]
  else if String.eqb magnification "FitV" then openaction_array ++ [PdfInt 0]
  else openaction_array.

(** Lines 423-465: the document after the two edits of its root. *)
Definition post_process (s : settings) (pdf : Pdf) : result exn Pdf :=
  let page_to_open := 0%nat in
  try page_to_open_width <- media_box pdf page_to_open 2 in
  try page_to_open_height <- media_box pdf page_to_open 3 in
  let root :=
    <["/PageLabels" := page_labels (page_numbering_prefix s)
                         (page_numbering_style s) (first_page s)]> (Root pdf) in
  let root :=
    if Py.truthy_opt (the_magnification s)
    then <["/OpenAction" :=
             PdfArray (openaction_array (default "" (the_magnification s))
                         (Z.of_nat page_to_open) page_to_open_height)]> root
    else root in
  Return {| Root := root; pages := pages pdf |}.

(** *** The whole script *)

Definition main (args : Args) (temp_dir : string) (fs0 : FS) : outcome :=
  let pdf_output_filepath := pdf_output_filepath (output_file args) in
  match check_options args with
  | Raise printed => {| trace := printed; how := quit |}
  | Return s =>
      let g := globals s in
      match process_files g temp_dir (temp_image_filename_index_length args)
              (input_files args) (loop_start g temp_dir fs0) with
      | Raise (printed, e) => {| trace := printed; how := uncaught e |}
      | Return st =>
          match image_files st with
          | [] =>
              {| trace := printed st
                   ++ [stdout ("No image files were processed successfully, so no PDF file "
                               +:+ "will be generated.")];
                 how := quit |}
          | _ :: _ =>
              let listing :=
                if DEBUG g
                then stdout "The following files will be combined into a PDF file:"
                     :: map stdout (image_files st)
                else [] in
              let pdf_data :=
                img2pdf_convert (fs st) (image_files st) (the_author s)
                  (the_title s) (the_page_mode s) in
              let assembled :=
                (printed st ++ listing
                 ++ [img2pdf_convert_called (image_files st) (the_author s)
                       (the_title s) (the_page_mode s)])%list in
              match post_process s (pikepdf_open pdf_data) with
              | Raise e => {| trace := assembled; how := uncaught e |}
              | Return pdf =>
                  let writing :=
                    (assembled
                     ++ [stdout ("Writing " +:+ pdf_output_filepath +:+ "...");
                         pdf_save_called pdf pdf_output_filepath])%list in
                  match pdf_save (fs st) pdf pdf_output_filepath with
                  | Return _ => {| trace := writing; how := finished |}
                  | Raise PermissionError =>
                      {| trace := (writing
                           ++ [stderr ("Unable to write " +:+ pdf_output_filepath +:+ "!")])%list;
                         how := quit |}
                  | Raise e => {| trace := writing; how := uncaught e |}
                  end
              end
          end
      end
  end.

End Program.

(** ** Vocabulary of the properties *)

Section Vocabulary.

Context `{C : Collaborators}.

(** [Image.open] succeeds on the path. *)
Definition opens (fs : FS) (input_file : string) : bool :=
  returns (Image_open fs input_file).

(** [Image.open] raises one of the two exceptions the loop catches. *)
Definition fails_to_open (fs : FS) (input_file : string) : bool :=
  match Image_open fs input_file with
  | Raise FileNotFoundError | Raise UnidentifiedImageError => true
  | _ => false
  end.

(** Writing a recompressed file does not change what [Image.open] finds at
    the input paths: the temporary directory holds none of them. *)
Definition inputs_untouched (temp_dir : string) (index_length : Z)
    (inputs : list string) : Prop :=
  forall (fs : FS) (image : Image) (options : save_options) (n : Z) (p : string),
    In p inputs ->
    save_fp options = temp_output_file temp_dir index_length n ->
    forall fs' : FS,
      Image_save fs image options = Return fs' ->
      Image_open fs' p = Image_open fs p.

(** Every input that opens can be written as a JPEG file: [image.save]
    returns for it, in whatever state the file system is. *)
Definition recompressible (temp_dir : string) (index_length : Z) (fs0 : FS)
    (inputs : list string) : Prop :=
  forall (fs : FS) (image : Image) (options : save_options) (n : Z) (p : string),
    In p inputs ->
    Image_open fs0 p = Return image ->
    save_fp options = temp_output_file temp_dir index_length n ->
    returns (Image_save fs (to_true_colour image) options) = true.

(** The chosen paths follow the inputs that opened: the [n]-th of them is
    either that input or the [n]-th recompressed file. *)
Inductive chosen_in_order (temp_dir : string) (index_length : Z)
  : Z -> list string -> list string -> Prop :=
| chosen_nil (n : Z) : chosen_in_order temp_dir index_length n [] []
| chosen_cons (n : Z) (input chosen : string) (inputs chosens : list string) :
    chosen = input \/ chosen = temp_output_file temp_dir index_length n ->
    chosen_in_order temp_dir index_length (n + 1) inputs chosens ->
    chosen_in_order temp_dir index_length n (input :: inputs) (chosen :: chosens).

(** Calls of document assembly ([img2pdf.convert]) and persistence
    ([pdf.save]). *)
Definition is_assembly (e : event) : bool :=
  match e with
  | img2pdf_convert_called _ _ _ _ | pdf_save_called _ _ => true
  | stdout _ | stderr _ => false
  end.

(** No event of the list is such a call. *)
Definition only_messages (events : list event) : Prop :=
  Forall (fun e => is_assembly e = false) events.

(** The invariant of the image-processing loop: the inputs open as they did
    at the start, and nothing but messages has been printed. *)
Definition loop_invariant (fs0 : FS) (inputs : list string) (st : loop_state) : Prop :=
  (forall p, In p inputs -> Image_open (fs st) p = Image_open fs0 p)
  /\ only_messages (printed st).

End Vocabulary.

(** ** A small world to run the program in *)

Module Demo.

Record file : Type := {
  content : option Image;     (* None: not an image *)
  size : Z
}.

(** [int()] on strings of ASCII digits. *)
Definition digit (c : ascii) : option Z :=
  let n := Z.of_nat (nat_of_ascii c) in
  if (48 <=? n) && (n <=? 57) then Some (n - 48) else None.

Fixpoint digits (s : string) (acc : Z) : option Z :=
  match s with
  | EmptyString => Some acc
  | String c s' =>
      match digit c with
      | Some d => digits s' (10 * acc + d)
      | None => None
      end
  end.

Definition int_of_digits (s : string) : option Z :=
  match s with
  | EmptyString => None
  | _ => digits s 0
  end.

Definition open (fs : gmap string file) (path : string) : result exn Image :=
  match fs !! path with
  | None => Raise FileNotFoundError
  | Some f =>
      match content f with
      | None => Raise UnidentifiedImageError
      | Some image => Return image
      end
  end.

(** The encoder of this world writes ten bytes per unit of quality; like
    Pillow's, it writes the modes a JPEG file can hold and raises [OSError]
    for the others. *)
Definition save (fs : gmap string file) (image : Image) (options : save_options)
  : result exn (gmap string file) :=
  if existsb (String.eqb (im_mode image)) ["1"; "L"; "RGB"; "RGBX"; "CMYK"; "YCbCr"]
  then Return
         (<[save_fp options :=
              {| content := Some {| im_format := "JPEG"; im_mode := im_mode image;
                                    im_info := {[ "dpi" := save_dpi options ]} |};
                 size := 10 * save_quality options |}]> fs)
  else Raise (OSError ("cannot write mode " +:+ im_mode image +:+ " as JPEG")).

Definition assemble (fs : gmap string file) (image_files : list string)
    (author title : string) (viewer_panes : PageMode) : Pdf :=
  {| Root := {[ "/Type" := PdfName "/Catalog" ]};
     pages := map (fun _ => {[ "/MediaBox" :=
                     PdfArray [PdfInt 0; PdfInt 0; PdfInt 595; PdfInt 842] ]})
                  image_files |}.

Definition write (fs : gmap string file) (pdf : Pdf) (path : string)
  : result exn (gmap string file) :=
  if String.eqb path "/readonly.pdf" then Raise PermissionError
  else Return (<[path := {| content := None; size := 1000 |}]> fs).

Definition world : Collaborators :=
  {| FS := gmap string file;
     pdf_data := Pdf;
     int_of_str := int_of_digits;
     Image_open := open;
     Image_convert := fun image mode =>
       {| im_format := im_format image; im_mode := mode; im_info := im_info image |};
     Image_save := save;
     getsize := fun fs path => default 0 (size <$> fs !! path);
     img2pdf_convert := assemble;
     pikepdf_open := fun pdf => pdf;
     pdf_save := write |}.

Definition png : Image :=
  {| im_format := "PNG"; im_mode := "P"; im_info := ∅ |}.

Definition jpeg : Image :=
  {| im_format := "JPEG"; im_mode := "RGB";
     im_info := {[ "jfif_density" := PyTuple [PyInt 300; PyInt 300] ]} |}.

(** [a.png] is a palette image, [b.jpg] a small JPEG file, [big.jpg] a large
    one, [notes.txt] is no image. *)
Definition files : gmap string file :=
  <["a.png" := {| content := Some png; size := 900 |}]>
  (<["b.jpg" := {| content := Some jpeg; size := 500 |}]>
  (<["big.jpg" := {| content := Some jpeg; size := 2000 |}]>
  (<["notes.txt" := {| content := None; size := 12 |}]> ∅))).

Definition args : Args :=
  {| command_filename := "jpeg2pdf.py";
     input_files := ["a.png"; "missing.jpg"; "b.jpg"; "notes.txt"; "big.jpg"];
     output_file := "out";
     author := None;
     title := Some "Scans";
     quality := Some "80";
     magnification := ["FitH"];
     page_mode := [];
     page_numbering := Some "A-%D";
     first_page_number := Some "5" |}.

Definition temp_dir : string := "/tmp/tmpx1".

Definition start : @loop_state world :=
  @loop_start world module_globals temp_dir files.

(** The settings that [check_options] derives from [args]. *)
Definition options : settings :=
  {| globals := {| DEBUG := true; jpeg_compression_quality := 80;
                   recompress_all_jpegs := false |};
     the_magnification := Some "FitH";
     the_page_mode := PageMode_none;
     the_author := "";
     the_title := "Scans";
     page_numbering_prefix := Some "A-";
     page_numbering_style := Some "/D";
     first_page := 5 |}.

(** What [img2pdf.convert] returns for two image files. *)
Definition document : Pdf := assemble files ["a.jpg"; "b.jpg"] "" "" PageMode_none.

(** The module variables with [recompress_all_jpegs] set. *)
Definition forced : Globals :=
  {| DEBUG := true; jpeg_compression_quality := 75; recompress_all_jpegs := true |}.

(** The same world, in which [locked.jpg] may not be read. *)
Definition guarded_world : Collaborators :=
  {| FS := gmap string file;
     pdf_data := Pdf;
     int_of_str := int_of_digits;
     Image_open := fun fs path =>
       if String.eqb path "locked.jpg" then Raise PermissionError else open fs path;
     Image_convert := fun image mode =>
       {| im_format := im_format image; im_mode := mode; im_info := im_info image |};
     Image_save := save;
     getsize := fun fs path => default 0 (size <$> fs !! path);
     img2pdf_convert := assemble;
     pikepdf_open := fun pdf => pdf;
     pdf_save := write |}.

Definition guarded_start : @loop_state guarded_world :=
  @loop_start guarded_world module_globals temp_dir files.

(** An image with an alpha channel, which [process_image] does not convert. *)
Definition png_with_alpha : Image :=
  {| im_format := "PNG"; im_mode := "RGBA"; im_info := ∅ |}.

Definition files_with_alpha : gmap string file :=
  <["logo.png" := {| content := Some png_with_alpha; size := 700 |}]> files.

(** The file system after [b.jpg] has been recompressed. *)
Definition files_after_b : gmap string file :=
  match @process_image world module_globals files "b.jpg"
          (temp_output_file temp_dir 4 1) (PyInt 75) with
  | Return fs' => fs'
  | Raise _ => files
  end.

(** The states and documents the runs in this world end in. *)
Definition final_state : @loop_state world :=
  match @process_files world module_globals temp_dir 4 (input_files args) start with
  | Return st => st
  | Raise _ => start
  end.

Definition forced_state : @loop_state world :=
  match @process_files world forced temp_dir 4 (input_files args) start with
  | Return st => st
  | Raise _ => start
  end.

Definition guarded_printed : list event :=
  match @process_files guarded_world module_globals temp_dir 4
          ["a.png"; "locked.jpg"; "b.jpg"] guarded_start with
  | Return _ => []
  | Raise (printed_so_far, _) => printed_so_far
  end.

Definition labelled : Pdf :=
  match post_process options document with
  | Return pdf => pdf
  | Raise _ => document
  end.

(** A command line that asks for two magnifications. *)
Definition conflicting_args : Args :=
  {| command_filename := "jpeg2pdf.py";
     input_files := ["a.png"];
     output_file := "out.pdf";
     author := None;
     title := None;
     quality := None;
     magnification := ["FitH"; "Fit"];
     page_mode := [];
     page_numbering := None;
     first_page_number := None |}.

End Demo.

(** * Properties *)

(** ** Strings *)

Lemma len_append (a b : string) : Py.len (a +:+ b) = Py.len a + Py.len b.
Proof.
  unfold Py.len. induction a as [|c a IH]; simpl String.length.
  - reflexivity.
  - simpl in IH. lia.
Qed.

Lemma len_nonneg (a : string) : 0 <= Py.len a.
Proof. unfold Py.len. lia. Qed.

Lemma substring_whole (a : string) : substring 0 (String.length a) a = a.
Proof. induction a as [|c a IH]; simpl; [reflexivity | now rewrite IH]. Qed.

Lemma substring_append (a b : string) :
  substring 0 (String.length a) (a +:+ b) = a.
Proof.
  induction a as [|c a IH]; simpl.
  - now destruct b.
  - now rewrite IH.
Qed.

Lemma slice_to_len_append (a b : string) :
  Py.slice_to (a +:+ b) (Some (Py.len a)) = a.
Proof.
  unfold Py.slice_to. pose proof (len_nonneg a) as Hlen.
  destruct (Z.ltb_spec (Py.len a) 0) as [Hneg|_]; [lia|].
  unfold Py.len. rewrite Nat2Z.id. apply substring_append.
Qed.

(** ** The scan of [parse_page_number_formatting_string] *)

Section Scan.

Import Parser.

Lemma loop_append (a b : string) : forall (i : Z) (l : locals),
  loop (a +:+ b) i l = try l' <- loop a i l in loop b (i + Py.len a) l'.
Proof.
  induction a as [|c a IH]; intros i l; simpl.
  - unfold Py.len. simpl. now rewrite Z.add_0_r.
  - destruct (body i c l) as [l'|e]; simpl; [|reflexivity].
    rewrite IH. replace (i + 1 + Py.len a) with (i + Py.len (String c a)).
    + reflexivity.
    + unfold Py.len. simpl String.length. lia.
Qed.

(** Outside a style, text made of plain characters and [%%] pairs leaves
    the local variables as they were. *)
Lemma loop_escaped_only_fuel (n : nat) : forall (p : string) (i : Z) (pos : option Z),
  (String.length p <= n)%nat ->
  escaped_only p = true ->
  loop p i {| style := None; page_style_pos := pos; percent_char_read := false |}
  = Return {| style := None; page_style_pos := pos; percent_char_read := false |}.
Proof.
  induction n as [|n IH]; intros p i pos Hn Hp.
  - destruct p; [reflexivity | simpl in Hn; lia].
  - destruct p as [|c p]; [reflexivity|].
    simpl in Hp. simpl loop. unfold body at 1. simpl.
    destruct (Ascii.eqb c "%") eqn:Hc; simpl.
    + destruct p as [|d p]; [discriminate|].
      apply andb_prop in Hp as [Hd Hp].
      simpl loop. unfold body at 1. simpl. rewrite Hd. simpl.
      apply IH; [simpl in Hn; lia | exact Hp].
    + apply IH; [simpl in Hn; lia | exact Hp].
Qed.

Lemma loop_escaped_only (p : string) (i : Z) :
  escaped_only p = true -> loop p i initial = Return initial.
Proof. apply (loop_escaped_only_fuel (String.length p)). lia. Qed.

Lemma no_percent_escaped_only (s : string) :
  Py.contains "%" s = false -> escaped_only s = true.
Proof.
  induction s as [|c s IH]; simpl; [reflexivity|].
  intros H. apply orb_false_elim in H as [Hc Hs].
  rewrite Hc. now apply IH.
Qed.

Lemma permitted_not_percent (c : ascii) : permitted c = true -> Ascii.eqb c "%" = false.
Proof.
  unfold permitted. simpl. intros H.
  destruct (Ascii.eqb_spec c "%") as [->|]; [discriminate H | reflexivity].
Qed.

(** The scan of text without style followed by one style token. *)
Lemma loop_style_token (p : string) (c : ascii) :
  escaped_only p = true ->
  permitted c = true ->
  loop (p +:+ String "%" (String c "")) 0 initial
  = Return {| style := Some (String "/" (String c ""));
              page_style_pos := Some (Py.len p);
              percent_char_read := false |}.
Proof.
  intros Hp Hc.
  rewrite loop_append, (loop_escaped_only p 0 Hp). cbn [bind].
  simpl loop. unfold body. simpl.
  rewrite (permitted_not_percent c Hc), Hc. simpl.
  do 3 f_equal. lia.
Qed.

(** Once set, the style stays. *)
Lemma body_keeps_style (i : Z) (c : ascii) (l l' : locals) :
  style l <> None -> body i c l = Return l' -> style l' <> None.
Proof.
  intros Hstyle. unfold body.
  destruct (Ascii.eqb c "%" && negb (percent_char_read l)); [now intros [= <-]|].
  destruct (percent_char_read l); [|now intros [= <-]].
  destruct (Ascii.eqb c "%"); [now intros [= <-]|].
  rewrite (bool_decide_eq_true_2 _ Hstyle). discriminate.
Qed.

Lemma loop_keeps_style (rest : string) : forall (i : Z) (l l' : locals),
  style l <> None -> loop rest i l = Return l' -> style l' <> None.
Proof.
  induction rest as [|c rest IH]; intros i l l' Hstyle; simpl.
  - now intros [= <-].
  - destruct (body i c l) as [l1|] eqn:Hbody; [|discriminate]. cbn [bind].
    apply IH. now apply (body_keeps_style i c l).
Qed.

(** Text that is not made of plain characters and [%%] pairs raises, sets a
    style, or ends in the middle of a pair. *)
Lemma loop_not_escaped_only_fuel (n : nat) :
  forall (p : string) (i : Z) (pos : option Z),
    (String.length p <= n)%nat ->
    escaped_only p = false ->
    match loop p i {| style := None; page_style_pos := pos;
                      percent_char_read := false |} with
    | Raise _ => True
    | Return l' =>
        style l' <> None \/ (style l' = None /\ percent_char_read l' = true)
    end.
Proof.
  induction n as [|n IH]; intros p i pos Hn Hp.
  - destruct p; [discriminate Hp | simpl in Hn; lia].
  - destruct p as [|c p]; [discriminate Hp|].
    simpl in Hp. simpl loop. unfold body at 1. simpl.
    destruct (Ascii.eqb c "%") eqn:Hc; simpl.
    + destruct p as [|d p]; [simpl; now right|].
      simpl loop. unfold body at 1. simpl.
      destruct (Ascii.eqb d "%") eqn:Hd; simpl.
      * apply IH; [simpl in Hn; lia | exact Hp].
      * destruct (permitted d); simpl; [|exact I].
        match goal with |- match loop p ?j ?l1 with _ => _ end =>
          destruct (loop p j l1) as [l'|] eqn:Hloop; [|exact I];
          left; apply (loop_keeps_style p j l1 l'); [discriminate | exact Hloop]
        end.
    + apply IH; [simpl in Hn; lia | exact Hp].
Qed.

Lemma loop_not_escaped_only (p : string) :
  escaped_only p = false ->
  match loop p 0 initial with
  | Raise _ => True
  | Return l' =>
      style l' <> None \/ (style l' = None /\ percent_char_read l' = true)
  end.
Proof. apply (loop_not_escaped_only_fuel (String.length p)). lia. Qed.

(** After each character the flag tells whether an odd number of [%] has
    just been read. *)
Lemma body_percent_char_read (i : Z) (c : ascii) (l l' : locals) :
  body i c l = Return l' ->
  percent_char_read l' = (if Ascii.eqb c "%" then negb (percent_char_read l) else false).
Proof.
  unfold body. destruct (Ascii.eqb c "%"), (percent_char_read l) eqn:Hread; simpl.
  - now intros [= <-].
  - now intros [= <-].
  - destruct (bool_decide (style l <> None)); [discriminate|].
    destruct (permitted c); [|discriminate]. now intros [= <-].
  - intros [= <-]. exact Hread.
Qed.

Lemma trailing_percents_all (s : string) :
  all_percent s = true -> trailing_percents s = String.length s.
Proof.
  induction s as [|c s IH]; simpl; [reflexivity|].
  intros H. now rewrite H.
Qed.

Lemma loop_percent_char_read (p : string) : forall (i : Z) (l l' : locals),
  loop p i l = Return l' ->
  percent_char_read l'
  = (if all_percent p then xorb (percent_char_read l) (Nat.odd (String.length p))
     else Nat.odd (trailing_percents p)).
Proof.
  induction p as [|c p IH]; intros i l l'; simpl.
  - intros [= <-]. now destruct (percent_char_read l).
  - destruct (body i c l) as [l1|] eqn:Hbody; [|discriminate]. cbn [bind].
    intros Hloop. rewrite (IH _ _ _ Hloop), (body_percent_char_read _ _ _ _ Hbody).
    destruct (all_percent p) eqn:Hall.
    + rewrite andb_true_r. destruct (Ascii.eqb c "%").
      * rewrite Nat.odd_succ, <- Nat.negb_odd.
        now destruct (percent_char_read l), (Nat.odd (String.length p)).
      * now rewrite (trailing_percents_all p Hall).
    + now rewrite andb_false_r.
Qed.

(** A style that has been set lies at least two characters back. *)
Lemma body_position (i : Z) (c : ascii) (l l' : locals) :
  (style l <> None -> exists k, page_style_pos l = Some k /\ k <= i - 2) ->
  body i c l = Return l' ->
  style l' <> None -> exists k, page_style_pos l' = Some k /\ k <= i + 1 - 2.
Proof.
  intros Hinv. unfold body.
  destruct (Ascii.eqb c "%" && negb (percent_char_read l)).
  { intros [= <-] Hstyle. destruct (Hinv Hstyle) as (k & Hk & Hle).
    exists k. split; [exact Hk | lia]. }
  destruct (percent_char_read l).
  2:{ intros [= <-] Hstyle. destruct (Hinv Hstyle) as (k & Hk & Hle).
      exists k. split; [exact Hk | lia]. }
  destruct (Ascii.eqb c "%").
  { cbn [bind]. intros [= <-] Hstyle. cbn [style] in Hstyle. cbn [page_style_pos].
    rewrite (bool_decide_eq_true_2 _ Hstyle). exists (i - 1). split; [reflexivity | lia]. }
  destruct (bool_decide (style l <> None)); [discriminate|].
  destruct (permitted c); [|discriminate].
  cbn [bind]. intros [= <-] _. cbn [page_style_pos].
  exists (i - 1). split; [reflexivity | lia].
Qed.

Lemma loop_position (p : string) : forall (i : Z) (l l' : locals),
  (style l <> None -> exists k, page_style_pos l = Some k /\ k <= i - 2) ->
  loop p i l = Return l' ->
  style l' <> None -> exists k, page_style_pos l' = Some k /\ k <= i + Py.len p - 2.
Proof.
  induction p as [|c p IH]; intros i l l' Hinv; simpl.
  - intros [= <-] Hstyle. destruct (Hinv Hstyle) as (k & Hk & Hle).
    exists k. split; [exact Hk | unfold Py.len; simpl; lia].
  - destruct (body i c l) as [l1|] eqn:Hbody; [|discriminate]. cbn [bind].
    intros Hloop Hstyle.
    destruct (IH (i + 1) l1 l' (body_position i c l l1 Hinv Hbody) Hloop Hstyle)
      as (k & Hk & Hle).
    exists k. split; [exact Hk|]. unfold Py.len in *. simpl String.length. lia.
Qed.

End Scan.

(** ** The format-string parser *)

Import Parser.

Example parse_A_D :
  parse_page_number_formatting_string "A-%D" = Return ("A-", Some "/D").
Proof. reflexivity. Qed.

Example parse_r :
  parse_page_number_formatting_string "%r" = Return ("", Some "/r").
Proof. reflexivity. Qed.

(** The prefix is cut out of the formatting string as it stands (line 175):
    it is always an initial segment of the input. *)
Lemma prefix_is_initial_segment (page_format prefix : string) (style : option string) :
  parse_page_number_formatting_string page_format = Return (prefix, style) ->
  exists n : nat, prefix = substring 0 n page_format.
Proof.
  unfold parse_page_number_formatting_string.
  destruct (loop page_format 0 initial) as [l|e]; simpl; [|discriminate].
  destruct (_ && _); [discriminate|].
  intros [= <- _]. unfold Py.slice_to.
  destruct (page_style_pos l) as [k|].
  - destruct (k <? 0); eauto.
  - exists (String.length page_format). now rewrite substring_whole.
Qed.

(** C2 (evaluation of the code): the parser returns the prefix of ["100%%"]
    with both percent signs; the pair [%%] is not reduced to one [%]. *)
Theorem parse_keeps_double_percent :
  parse_page_number_formatting_string "100%%" = Return ("100%%", None).
Proof. reflexivity. Qed.

(** C5 (as stated, at ["%z%D"]): the only recognized style token of the
    string is its final two characters, yet the parser raises. *)
Lemma final_token_after_invalid_escape :
  parse_page_number_formatting_string "%z%D" = Raise (invalid_style "z")
  /\ parse_page_number_formatting_string "%z%D" <> Return ("%z", Some "/D").
Proof. split; [reflexivity | discriminate]. Qed.

(** C5 (amended): when every [%] before the final style token belongs to a
    [%%] pair, the parser returns the text before the token as the prefix and
    ['/'] plus the token character as the style; an input with no [%] is
    returned whole, with no style. *)
Theorem parse_final_style_token (p : string) (c : ascii) (s : string) :
  escaped_only p = true ->
  permitted c = true ->
  Py.contains "%" s = false ->
  parse_page_number_formatting_string (p +:+ String "%" (String c ""))
    = Return (p, Some (String "/" (String c "")))
  /\ parse_page_number_formatting_string s = Return (s, None).
Proof.
  intros Hp Hc Hs. split.
  - unfold parse_page_number_formatting_string.
    rewrite (loop_style_token p c Hp Hc). cbn [bind page_style_pos style].
    rewrite slice_to_len_append, len_append.
    replace (Py.len p + Py.len (String "%" (String c "")) - 2) with (Py.len p)
      by (unfold Py.len; simpl String.length; lia).
    rewrite (bool_decide_eq_false_2 (Some (Py.len p) <> Some (Py.len p)))
      by (intros H; now apply H).
    now rewrite andb_false_r.
  - unfold parse_page_number_formatting_string.
    rewrite (loop_escaped_only s 0 (no_percent_escaped_only s Hs)).
    reflexivity.
Qed.

(** The condition on the text before the token cannot be dropped: the parser
    returns that text and the style of the final token only if every [%]
    before it belongs to a [%%] pair. *)
Lemma parse_final_style_token_only_if (p : string) (c : ascii) :
  permitted c = true ->
  parse_page_number_formatting_string (p +:+ String "%" (String c ""))
    = Return (p, Some (String "/" (String c ""))) ->
  escaped_only p = true.
Proof.
  intros Hc Hparse. destruct (escaped_only p) eqn:Hp; [reflexivity|]. exfalso.
  pose proof (loop_not_escaped_only p Hp) as Hscan.
  pose proof (permitted_not_percent c Hc) as Hc'.
  revert Hparse. unfold parse_page_number_formatting_string.
  rewrite loop_append.
  destruct (loop p 0 initial) as [[style pos read]|]; [|discriminate].
  cbn [bind]. simpl loop. unfold body. simpl in Hscan |- *. rewrite Hc'. simpl.
  destruct Hscan as [Hstyle|[-> ->]].
  - destruct read; simpl.
    + rewrite (bool_decide_eq_true_2 _ Hstyle), len_append.
      rewrite bool_decide_eq_true_2 by discriminate.
      rewrite bool_decide_eq_true_2; [discriminate|].
      unfold Py.len. simpl String.length. intros [= H]. lia.
    + rewrite (bool_decide_eq_true_2 _ Hstyle). discriminate.
  - simpl. destruct (_ && _); discriminate.
Qed.

Lemma parse_final_style_token_witness :
  parse_page_number_formatting_string "50%%-%R" = Return ("50%%-", Some "/R")
  /\ parse_page_number_formatting_string "page " = Return ("page ", None).
Proof.
  apply (parse_final_style_token "50%%-" "R" "page "); reflexivity.
Defined.

(** C6 (evaluation of the code): a [%%] pair after the style token moves
    [page_style_pos] (line 170), so ["%D%%"], whose style token is followed
    by the suffix ["%%"], is accepted. *)
Theorem parse_accepts_escaped_suffix :
  parse_page_number_formatting_string "%D%%" = Return ("%D", Some "/D").
Proof. reflexivity. Qed.

(** The three failures the specification lists do occur. *)
Lemma parse_failures :
  parse_page_number_formatting_string "%D-x" = Raise no_suffixes
  /\ parse_page_number_formatting_string "%D%r" = Raise only_one_style
  /\ parse_page_number_formatting_string "%z" = Raise (invalid_style "z").
Proof. repeat split. Qed.

(** C10 (as stated, at ["%D%"]): the final [%] is unescaped, and the parser
    raises because a style token precedes it. *)
Lemma trailing_percent_after_style :
  parse_page_number_formatting_string "%D%" = Raise no_suffixes
  /\ parse_page_number_formatting_string "%D%" <> Return ("%D%", None).
Proof. split; [reflexivity | discriminate]. Qed.

(** C10 (amended): a formatting string that ends in a single unescaped [%],
    every earlier [%] of which belongs to a [%%] pair, is returned whole as
    the prefix, with no style. *)
Theorem parse_trailing_percent (p : string) :
  escaped_only p = true ->
  parse_page_number_formatting_string (p +:+ "%") = Return (p +:+ "%", None).
Proof.
  intros Hp. unfold parse_page_number_formatting_string.
  rewrite loop_append, (loop_escaped_only p 0 Hp). reflexivity.
Qed.

(** The condition on the earlier text cannot be dropped: when the final [%]
    is unescaped, the parser returns only if every earlier [%] belongs to a
    [%%] pair. *)
Lemma parse_trailing_percent_only_if (p : string) (r : string * option string) :
  Nat.even (trailing_percents p) = true ->
  parse_page_number_formatting_string (p +:+ "%") = Return r ->
  escaped_only p = true.
Proof.
  intros Heven Hparse. destruct (escaped_only p) eqn:Hp; [reflexivity|]. exfalso.
  pose proof (loop_not_escaped_only p Hp) as Hscan.
  revert Hparse. unfold parse_page_number_formatting_string. rewrite loop_append.
  destruct (loop p 0 initial) as [l|] eqn:Hloop; [|discriminate].
  assert (Hread : percent_char_read l = false).
  { rewrite (loop_percent_char_read p 0 initial l Hloop). cbn [percent_char_read initial].
    destruct (all_percent p) eqn:Hall.
    - rewrite <- (trailing_percents_all p Hall), <- Nat.negb_even, Heven. reflexivity.
    - now rewrite <- Nat.negb_even, Heven. }
  destruct Hscan as [Hstyle|[_ Hread']]; [|congruence].
  destruct (loop_position p 0 initial l) as (k & Hk & Hle);
    [intros H; now destruct H | exact Hloop | exact Hstyle |].
  cbn [bind]. simpl loop. unfold body. rewrite Hread. simpl.
  rewrite Hk, len_append.
  rewrite bool_decide_eq_true_2 by discriminate.
  rewrite bool_decide_eq_true_2; [discriminate|].
  unfold Py.len in *. simpl String.length. intros [= H]. lia.
Qed.

Lemma parse_trailing_percent_witness :
  parse_page_number_formatting_string "abc%" = Return ("abc%", None).
Proof. apply (parse_trailing_percent "abc"). reflexivity. Defined.

(** ** Recompression *)

Section Recompression.

Context `{C : Collaborators}.

Lemma valid_quality (q : Z) : 1 <= q <= 100 -> invalid_quality (PyInt q) = false.
Proof.
  intros [Hlow Hhigh]. unfold invalid_quality.
  destruct (Z.leb_spec 1 q); [|lia]. destruct (Z.ltb_spec q 101); [reflexivity | lia].
Qed.

(** The encoder receives the module-level quality, whatever the argument. *)
Lemma save_call_quality (g : Globals) (image : Image) (output_filepath : string)
    (quality : pyobj) :
  save_quality (save_call g image output_filepath quality) = jpeg_compression_quality g.
Proof. unfold save_call. now destruct (image_density image). Qed.

Lemma save_call_fp (g : Globals) (image : Image) (output_filepath : string)
    (quality : pyobj) :
  save_fp (save_call g image output_filepath quality) = output_filepath.
Proof. unfold save_call. now destruct (image_density image). Qed.

(** With a valid quality and a file that opens, [process_image] is the call
    of [image.save]: it returns what that call returns and raises what it
    raises. *)
Lemma process_image_saves (g : Globals) (fs : FS) (input output : string)
    (quality : pyobj) (image : Image) :
  invalid_quality quality = false ->
  Image_open fs input = Return image ->
  process_image g fs input output quality
  = Image_save fs (to_true_colour image) (save_call g image output quality).
Proof. intros Hq Hopen. unfold process_image. now rewrite Hq, Hopen. Qed.

(** C3 (evaluation of the code): called with quality 50 while the module's
    [jpeg_compression_quality] is 75, [process_image] writes the output file
    with quality 75. *)
Theorem process_image_ignores_quality (fs : FS) (input_filepath output_filepath : string)
    (image : Image) :
  Image_open fs input_filepath = Return image ->
  exists options : save_options,
    process_image module_globals fs input_filepath output_filepath (PyInt 50)
    = Image_save fs (to_true_colour image) options
    /\ save_fp options = output_filepath
    /\ save_quality options = 75.
Proof.
  intros Hopen.
  exists (save_call module_globals image output_filepath (PyInt 50)).
  split; [|split].
  - now apply process_image_saves.
  - apply save_call_fp.
  - now rewrite save_call_quality.
Qed.

Lemma keep_original_spec (g : Globals) (image : Image) (fs' : FS)
    (input_file output_file : string) :
  keep_original g image fs' input_file output_file = true
  <-> Py.upper (im_format image) = "JPEG"
      /\ recompress_all_jpegs g = false
      /\ getsize fs' input_file <= getsize fs' output_file.
Proof.
  unfold keep_original. rewrite !andb_true_iff, String.eqb_eq, negb_true_iff, Z.leb_le.
  tauto.
Qed.

(** An input that opens and is recompressed adds one path. *)
Lemma iteration_opened (g : Globals) (temp_dir : string) (index_length : Z)
    (input_file : string) (st : loop_state) (image : Image) (fs' : FS) :
  Image_open (fs st) input_file = Return image ->
  process_image g (fs st) input_file
    (temp_output_file temp_dir index_length (input_file_counter st))
    (PyInt (jpeg_compression_quality g)) = Return fs' ->
  let output_file := temp_output_file temp_dir index_length (input_file_counter st) in
  iteration g temp_dir index_length input_file st
  = Return {| fs := fs';
              image_files := image_files st
                ++ [chosen_file g image fs' input_file output_file];
              input_file_counter := input_file_counter st + 1;
              printed := printed st
                ++ [stdout (if DEBUG g
                            then "Processing " +:+ input_file +:+ " and saving as "
                                 +:+ output_file +:+ "..."
                            else "Processing " +:+ input_file +:+ "...")] |}.
Proof.
  intros Hopen Hsaved output_file. subst output_file.
  unfold iteration. rewrite Hopen. cbv zeta. now rewrite Hsaved.
Qed.

(** An exception of [image.save] other than [FileNotFoundError] and
    [UnidentifiedImageError] ends the loop: nobody catches it, and no path
    is added for the image. *)
Lemma iteration_save_raises (g : Globals) (temp_dir : string) (index_length : Z)
    (input_file : string) (st : loop_state) (image : Image) (e : exn) :
  Image_open (fs st) input_file = Return image ->
  process_image g (fs st) input_file
    (temp_output_file temp_dir index_length (input_file_counter st))
    (PyInt (jpeg_compression_quality g)) = Raise e ->
  e <> FileNotFoundError ->
  e <> UnidentifiedImageError ->
  exists printed_so_far : list event,
    iteration g temp_dir index_length input_file st = Raise (printed_so_far, e).
Proof.
  intros Hopen Hraised H1 H2. unfold iteration. rewrite Hopen. cbv zeta.
  rewrite Hraised. destruct e; simpl; eauto; congruence.
Qed.

(** C1: for an input that opens and whose recompression returns, the loop
    appends the original path exactly when the image is a JPEG, forced
    recompression is off and the original is no larger than the recompressed
    file; otherwise it appends the path of the recompressed file. *)
Theorem selection_rule (g : Globals) (temp_dir : string) (index_length : Z)
    (input_file : string) (st : loop_state) (image : Image) (fs' : FS) :
  Image_open (fs st) input_file = Return image ->
  process_image g (fs st) input_file
    (temp_output_file temp_dir index_length (input_file_counter st))
    (PyInt (jpeg_compression_quality g)) = Return fs' ->
  exists st' : loop_state,
    iteration g temp_dir index_length input_file st = Return st'
    /\ fs st' = fs'
    /\ let output_file :=
         temp_output_file temp_dir index_length (input_file_counter st) in
       let kept_condition :=
         Py.upper (im_format image) = "JPEG"
         /\ recompress_all_jpegs g = false
         /\ getsize fs' input_file <= getsize fs' output_file in
       (kept_condition -> image_files st' = (image_files st ++ [input_file])%list)
       /\ (~ kept_condition -> image_files st' = (image_files st ++ [output_file])%list).
Proof.
  intros Hopen Hsaved. eexists. split; [|split].
  - apply (iteration_opened g temp_dir index_length input_file st image fs' Hopen Hsaved).
  - reflexivity.
  - cbn [fs image_files]. unfold chosen_file.
    match goal with |- context [keep_original ?a ?b ?c ?d ?e] =>
      pose proof (keep_original_spec a b c d e) as Hspec;
      destruct (keep_original a b c d e) end.
    + split; [reflexivity|]. intros Hnot. exfalso. apply Hnot, Hspec. reflexivity.
    + split; [|reflexivity]. intros Hkept. apply Hspec in Hkept. discriminate.
Qed.

End Recompression.

Lemma process_image_ignores_quality_witness :
  exists options : save_options,
    process_image (C := Demo.world) module_globals Demo.files "b.jpg" "/tmp/b.jpg" (PyInt 50)
    = Demo.save Demo.files Demo.jpeg options
    /\ save_fp options = "/tmp/b.jpg"
    /\ save_quality options = 75.
Proof.
  apply (process_image_ignores_quality (C := Demo.world) Demo.files "b.jpg" "/tmp/b.jpg"
           Demo.jpeg).
  reflexivity.
Defined.

Lemma selection_rule_witness :
  exists st' : loop_state,
    iteration (C := Demo.world) module_globals Demo.temp_dir 4 "b.jpg" Demo.start
    = Return st'
    /\ image_files st' = ["b.jpg"].
Proof.
  destruct (selection_rule (C := Demo.world) module_globals Demo.temp_dir 4 "b.jpg"
              Demo.start Demo.jpeg Demo.files_after_b)
    as (st' & Hrun & _ & Hkept & _).
  - reflexivity.
  - vm_compute. reflexivity.
  - exists st'. split; [exact Hrun|].
    apply Hkept. repeat split. vm_compute. discriminate.
Defined.

(** In the small world an image with an alpha channel opens, is not
    converted, and ends the loop with the [OSError] of [image.save]. *)
Example alpha_channel_ends_the_loop :
  opens (C := Demo.world) Demo.files_with_alpha "logo.png" = true
  /\ exists printed_so_far : list event,
       process_files (C := Demo.world) module_globals Demo.temp_dir 4 ["logo.png"]
         (loop_start (C := Demo.world) module_globals Demo.temp_dir Demo.files_with_alpha)
       = Raise (printed_so_far, OSError "cannot write mode RGBA as JPEG").
Proof. split; [reflexivity|]. eexists. vm_compute. reflexivity. Qed.

(** ** The image-processing loop *)

Section Orchestrator.

Context `{C : Collaborators}.

Lemma only_messages_app (a b : list event) :
  only_messages a -> only_messages b -> only_messages (a ++ b).
Proof. unfold only_messages. intros Ha Hb. apply Forall_app. now split. Qed.

(** An input that raises one of the two caught exceptions changes nothing
    but the messages. *)
Lemma iteration_skipped (g : Globals) (temp_dir : string) (index_length : Z)
    (input_file : string) (st : loop_state) :
  fails_to_open (fs st) input_file = true ->
  exists line : string,
    iteration g temp_dir index_length input_file st
    = Return {| fs := fs st; image_files := image_files st;
                input_file_counter := input_file_counter st;
                printed := printed st ++ [stderr line] |}.
Proof.
  unfold fails_to_open, iteration.
  destruct (Image_open (fs st) input_file) as [image|[]]; try discriminate;
    intros _; simpl; eauto.
Qed.

Lemma opens_or_fails (fs0 : FS) (p : string) :
  opens fs0 p = true -> fails_to_open fs0 p = false.
Proof.
  unfold opens, fails_to_open. now destruct (Image_open fs0 p).
Qed.

Lemma fails_not_opens (fs0 : FS) (p : string) :
  fails_to_open fs0 p = true -> opens fs0 p = false.
Proof.
  unfold opens, fails_to_open. now destruct (Image_open fs0 p).
Qed.

(** Among inputs that either open or are skipped, those that open are the
    ones left over. *)
Lemma opened_count (fs0 : FS) (inputs : list string) :
  Forall (fun p => opens fs0 p = true \/ fails_to_open fs0 p = true) inputs ->
  (length (List.filter (opens fs0) inputs)
   = length inputs - length (List.filter (fails_to_open fs0) inputs))%nat
  /\ (length (List.filter (fails_to_open fs0) inputs) <= length inputs)%nat.
Proof.
  induction 1 as [|p inputs [Hp|Hp] _ [IH1 IH2]]; simpl.
  - split; reflexivity.
  - rewrite Hp, (opens_or_fails _ _ Hp). simpl. split; lia.
  - rewrite Hp, (fails_not_opens _ _ Hp). simpl. split; lia.
Qed.

Section Loop.

Variables (g : Globals) (temp_dir : string) (index_length : Z).
Variables (fs0 : FS) (inputs : list string).
Hypothesis Hquality : 1 <= jpeg_compression_quality g <= 100.
Hypothesis Huntouched : inputs_untouched temp_dir index_length inputs.
Hypothesis Hrecompressible : recompressible temp_dir index_length fs0 inputs.

Lemma process_files_spec (files : list string) : forall st : loop_state,
  incl files inputs ->
  Forall (fun p => opens fs0 p = true \/ fails_to_open fs0 p = true) files ->
  loop_invariant fs0 inputs st ->
  exists (st' : loop_state) (chosens : list string),
    process_files g temp_dir index_length files st = Return st'
    /\ image_files st' = image_files st ++ chosens
    /\ chosen_in_order temp_dir index_length (input_file_counter st)
         (List.filter (opens fs0) files) chosens
    /\ loop_invariant fs0 inputs st'.
Proof.
  induction files as [|p files IH]; intros st Hincl Hall [Hsame Hprinted].
  - exists st, []. simpl. rewrite app_nil_r.
    repeat split; [constructor | exact Hsame | exact Hprinted].
  - apply Forall_cons_iff in Hall as [Hp Hall].
    assert (Hin : In p inputs) by (apply Hincl; now left).
    assert (Hincl' : incl files inputs)
      by (intros q Hq; apply Hincl; now right).
    simpl process_files. simpl List.filter.
    destruct Hp as [Hp|Hp].
    + rewrite Hp. unfold opens in Hp. rewrite <- (Hsame p Hin) in Hp.
      destruct (Image_open (fs st) p) as [image|] eqn:Hopen; [|discriminate].
      assert (Hopen0 : Image_open fs0 p = Return image)
        by now rewrite <- (Hsame p Hin).
      pose proof (Hrecompressible (fs st) image
                    (save_call g image
                       (temp_output_file temp_dir index_length (input_file_counter st))
                       (PyInt (jpeg_compression_quality g)))
                    (input_file_counter st) p Hin Hopen0 (save_call_fp _ _ _ _))
        as Hreturns.
      destruct (Image_save (fs st) (to_true_colour image) _) as [fs'|] eqn:Hsave;
        [|discriminate Hreturns].
      assert (Hsaved : process_image g (fs st) p
                (temp_output_file temp_dir index_length (input_file_counter st))
                (PyInt (jpeg_compression_quality g)) = Return fs').
      { rewrite (process_image_saves g (fs st) p _ _ image
                   (valid_quality _ Hquality) Hopen). exact Hsave. }
      rewrite (iteration_opened g temp_dir index_length p st image fs' Hopen Hsaved).
      cbn [bind].
      match goal with |- context [process_files _ _ _ files ?st1] =>
        destruct (IH st1 Hincl' Hall) as (st' & chosens & Hrun & Hfiles & Horder & Hinv)
      end.
      { split; cbn [fs printed].
        - intros q Hq. rewrite <- (Hsame q Hq).
          apply (Huntouched _ _ _ (input_file_counter st) q Hq (save_call_fp _ _ _ _)
                   fs' Hsave).
        - apply only_messages_app; [exact Hprinted|].
          repeat constructor. }
      eexists st', (_ :: chosens). rewrite Hrun, Hfiles. cbn [image_files].
      rewrite <- app_assoc. simpl.
      repeat split; try apply Hinv.
      constructor; [|exact Horder].
      unfold chosen_file. destruct (keep_original _ _ _ _ _); [now left | now right].
    + rewrite (fails_not_opens _ _ Hp).
      unfold fails_to_open in Hp. rewrite <- (Hsame p Hin) in Hp.
      destruct (iteration_skipped g temp_dir index_length p st Hp) as [line Hskip].
      rewrite Hskip. cbn [bind].
      match goal with |- context [process_files _ _ _ files ?st1] =>
        destruct (IH st1 Hincl' Hall) as (st' & chosens & Hrun & Hfiles & Horder & Hinv)
      end.
      { split; cbn [fs printed]; [exact Hsame|].
        apply only_messages_app; [exact Hprinted | repeat constructor]. }
      exists st', chosens. rewrite Hrun, Hfiles.
      repeat split; try apply Hinv. exact Horder.
Qed.

End Loop.

End Orchestrator.

Section Run.

Context `{C : Collaborators}.

Lemma check_quality_valid (args : Args) (g : Globals) :
  check_quality args = Return g -> 1 <= jpeg_compression_quality g <= 100.
Proof.
  unfold check_quality. destruct (Py.truthy_opt (quality args)).
  - destruct (int_of_str _) as [q|]; [|discriminate].
    destruct (Z.leb_spec 1 q), (Z.ltb_spec q 101); simpl; try discriminate.
    intros [= <-]. simpl. lia.
  - intros [= <-]. simpl. lia.
Qed.

Lemma check_options_quality (args : Args) (s : settings) :
  check_options args = Return s -> 1 <= jpeg_compression_quality (globals s) <= 100.
Proof.
  unfold check_options.
  destruct (check_quality args) as [g|] eqn:Hg; [|discriminate].
  destruct (check_magnification args); [|discriminate].
  destruct (check_page_mode args); [|discriminate].
  destruct (check_page_numbering args); [|discriminate].
  destruct (check_first_page args); [|discriminate].
  intros [= <-]. simpl. now apply check_quality_valid with args.
Qed.

Lemma loop_start_invariant (g : Globals) (temp_dir : string) (fs0 : FS)
    (inputs : list string) :
  loop_invariant fs0 inputs (loop_start g temp_dir fs0).
Proof.
  split; [reflexivity|]. unfold loop_start. cbn [printed].
  destruct (DEBUG g); repeat constructor.
Qed.


End Run.

(** In the small world no input lies in the temporary directory. *)
Lemma demo_inputs_untouched :
  inputs_untouched (C := Demo.world) Demo.temp_dir
    (temp_image_filename_index_length Demo.args) (input_files Demo.args).
Proof.
  intros fs image options n p Hin Hfp fs'. simpl. unfold Demo.save, Demo.open.
  destruct (existsb _ _); [|discriminate]. intros [= <-].
  rewrite lookup_insert_ne; [reflexivity|].
  rewrite Hfp. unfold temp_output_file, Demo.temp_dir. simpl.
  intros Heq. simpl in Hin.
  repeat (destruct Hin as [<-|Hin]; [discriminate Heq|]). exact Hin.
Qed.

(** Its images are a palette image, which is converted, and JPEG files in
    RGB: all of them can be written. *)
Lemma demo_recompressible :
  recompressible (C := Demo.world) Demo.temp_dir
    (temp_image_filename_index_length Demo.args) Demo.files (input_files Demo.args).
Proof.
  intros fs image options n p Hin Hopen _. simpl in Hin.
  repeat (destruct Hin as [<-|Hin];
          [vm_compute in Hopen; try discriminate Hopen;
           injection Hopen as <-; reflexivity|]).
  destruct Hin.
Qed.


(** ** The edits of the document root *)

Section PostProcessing.

Context `{C : Collaborators}.

(** A parsed style is a slash and one character. *)
Lemma loop_style (rest : string) : forall (i : Z) (l l' : Parser.locals),
  Py.truthy_opt (Parser.style l) = bool_decide (Parser.style l <> None) ->
  Parser.loop rest i l = Return l' ->
  Py.truthy_opt (Parser.style l') = bool_decide (Parser.style l' <> None).
Proof.
  induction rest as [|c rest IH]; intros i l l' Hl; simpl.
  - now intros [= <-].
  - destruct (Parser.body i c l) as [l1|] eqn:Hbody; [|discriminate]. cbn [bind].
    apply IH. revert Hbody. unfold Parser.body.
    destruct (Ascii.eqb c "%" && negb (Parser.percent_char_read l)).
    + now intros [= <-].
    + destruct (Parser.percent_char_read l); [|now intros [= <-]].
      destruct (Ascii.eqb c "%"); [now intros [= <-]|].
      destruct (bool_decide (Parser.style l <> None)); [discriminate|].
      destruct (Parser.permitted c); [|discriminate].
      now intros [= <-].
Qed.

Lemma parsed_style_truthy (page_format prefix : string) (style : option string) :
  Parser.parse_page_number_formatting_string page_format = Return (prefix, style) ->
  Py.truthy_opt style = bool_decide (style <> None).
Proof.
  unfold Parser.parse_page_number_formatting_string.
  destruct (Parser.loop page_format 0 Parser.initial) as [l|] eqn:Hloop; [|discriminate].
  cbn [bind]. destruct (_ && _); [discriminate|]. intros [= _ <-].
  now apply (loop_style page_format 0 Parser.initial l).
Qed.

Lemma checked_style_truthy (args : Args) (s : settings) :
  check_options args = Return s ->
  Py.truthy_opt (page_numbering_style s) = bool_decide (page_numbering_style s <> None).
Proof.
  unfold check_options.
  destruct (check_quality args); [|discriminate].
  destruct (check_magnification args); [|discriminate].
  destruct (check_page_mode args); [|discriminate].
  destruct (check_page_numbering args) as [[prefix style]|] eqn:Hnumbering;
    [|discriminate].
  destruct (check_first_page args); [|discriminate].
  intros [= <-]. cbn [page_numbering_style snd bind].
  revert Hnumbering. unfold check_page_numbering.
  destruct (page_numbering args) as [page_format|]; [|now intros [= _ <-]].
  destruct (Parser.parse_page_number_formatting_string page_format)
    as [[prefix' style']|] eqn:Hparse; [|discriminate].
  intros [= _ <-]. now apply parsed_style_truthy with page_format prefix'.
Qed.

Lemma post_process_root (s : settings) (pdf pdf' : Pdf) :
  post_process s pdf = Return pdf' ->
  exists height : pdfobj,
    media_box pdf 0 3 = Return height
    /\ Root pdf'
       = (if Py.truthy_opt (the_magnification s)
          then <["/OpenAction" :=
                   PdfArray (openaction_array (default "" (the_magnification s)) 0 height)]>
          else fun root => root)
           (<["/PageLabels" := page_labels (page_numbering_prefix s)
                                 (page_numbering_style s) (first_page s)]> (Root pdf)).
Proof.
  unfold post_process.
  destruct (media_box pdf 0 2); [|discriminate].
  destruct (media_box pdf 0 3) as [height|]; [|discriminate].
  cbn [bind]. intros [= <-]. exists height. split; [reflexivity|].
  cbn [Root]. now destruct (Py.truthy_opt (the_magnification s)).
Qed.

End PostProcessing.

Section RootEdits.

Context `{C : Collaborators}.

Lemma page_label_lookups (prefix style : option string) (first_page : Z) :
  let label := page_label prefix style first_page in
  label !! "/P" = (if Py.truthy_opt prefix then Some (PdfString (default "" prefix)) else None)
  /\ label !! "/S" = (if Py.truthy_opt style then Some (PdfName (default "" style)) else None)
  /\ label !! "/St" = (if 1 <? first_page then Some (PdfInt first_page) else None)
  /\ (forall key : string,
        key <> "/P" -> key <> "/S" -> key <> "/St" -> label !! key = None).
Proof.
  unfold page_label.
  destruct (Py.truthy_opt prefix), (Py.truthy_opt style), (1 <? first_page);
    repeat split; intros; simplify_map_eq; reflexivity.
Qed.

(** C7: with the options accepted, the post-processor stores under
    [/PageLabels] a table of one range that starts at page index 0; its
    dictionary has the prefix exactly when the parsed prefix is not empty,
    the style exactly when a style was parsed, the starting number exactly
    when the first page number exceeds 1, and nothing else. *)
Theorem page_label_table (args : Args) (s : settings) (pdf pdf' : Pdf) :
  check_options args = Return s ->
  post_process s pdf = Return pdf' ->
  exists label : gmap string pdfobj,
    Root pdf' !! "/PageLabels"
      = Some (PdfDict {[ "/Nums" := PdfArray [PdfInt 0; PdfDict label] ]})
    /\ label !! "/P"
       = match page_numbering_prefix s with
         | None | Some EmptyString => None
         | Some prefix => Some (PdfString prefix)
         end
    /\ label !! "/S" = PdfName <$> page_numbering_style s
    /\ label !! "/St"
       = (if decide (1 < first_page s) then Some (PdfInt (first_page s)) else None)
    /\ (forall key : string,
          key <> "/P" -> key <> "/S" -> key <> "/St" -> label !! key = None).
Proof.
  intros Hoptions Hpost.
  destruct (post_process_root s pdf pdf' Hpost) as (height & _ & ->).
  pose proof (checked_style_truthy args s Hoptions) as Hstyle.
  destruct (page_label_lookups (page_numbering_prefix s) (page_numbering_style s)
              (first_page s)) as (HP & HS & HSt & Hother).
  exists (page_label (page_numbering_prefix s) (page_numbering_style s) (first_page s)).
  repeat split.
  - destruct (Py.truthy_opt (the_magnification s)); now simplify_map_eq.
  - rewrite HP. now destruct (page_numbering_prefix s) as [[|c prefix]|].
  - rewrite HS, Hstyle. destruct (page_numbering_style s); [|reflexivity].
    rewrite bool_decide_eq_true_2; [reflexivity | discriminate].
  - rewrite HSt. destruct (Z.ltb_spec 1 (first_page s)), (decide (1 < first_page s));
      try reflexivity; lia.
  - exact Hother.
Qed.


End RootEdits.

Lemma page_label_table_witness :
  exists label : gmap string pdfobj,
    label !! "/S" = Some (PdfName "/D") /\ label !! "/St" = Some (PdfInt 5).
Proof.
  destruct (post_process Demo.options Demo.document) as [pdf'|] eqn:Hpost;
    [|discriminate Hpost].
  destruct (page_label_table (C := Demo.world) Demo.args Demo.options Demo.document pdf')
    as (label & _ & _ & HS & HSt & _).
  - reflexivity.
  - exact Hpost.
  - exists label. split; [exact HS | exact HSt].
Defined.


(** With first page number 1 nothing is stored under [/St]. *)
Example no_starting_number :
  page_label (Some "") (Some "/D") 1 !! "/St" = None
  /\ page_label (Some "") (Some "/D") 5 !! "/St" = Some (PdfInt 5)
  /\ page_label (Some "") (Some "/D") 5 !! "/S" = Some (PdfName "/D")
  /\ page_label (Some "") (Some "/D") 5 !! "/P" = None.
Proof. repeat split. Qed.

(** ** The output file path *)

Lemma find_from_spec (c : ascii) (s : string) : forall i : Z,
  0 <= i ->
  (Py.contains c s = false -> Py.find_from c s i = -1)
  /\ (Py.contains c s = true -> 0 <= Py.find_from c s i).
Proof.
  induction s as [|d s IH]; intros i Hi; simpl.
  - split; [reflexivity | discriminate].
  - destruct (Ascii.eqb d c); simpl.
    + split; [discriminate | intros _; exact Hi].
    + apply IH. lia.
Qed.

(** What lines 247-248 do: [.pdf] is appended exactly when the path contains
    no full stop at all. *)
Lemma pdf_output_filepath_spec (output_file : string) :
  (Py.contains "." output_file = false ->
   pdf_output_filepath output_file = output_file +:+ ".pdf")
  /\ (Py.contains "." output_file = true ->
      pdf_output_filepath output_file = output_file).
Proof.
  unfold pdf_output_filepath, Py.find.
  destruct (find_from_spec "." output_file 0 (Z.le_refl 0)) as [Hnone Hsome].
  split; intros H.
  - now rewrite (Hnone H).
  - specialize (Hsome H). destruct (Z.eqb_spec (Py.find_from "." output_file 0) (-1));
      [lia | reflexivity].
Qed.

(** C9 (evaluation of the code): the output path [./out] names a file
    without extension, and it is left as it is, because the path contains a
    full stop. *)
Theorem pdf_output_filepath_dot_directory :
  Py.splitext "./out" = ("./out", "")
  /\ pdf_output_filepath "./out" = "./out".
Proof. split; reflexivity. Qed.

Example pdf_output_filepath_plain :
  pdf_output_filepath "out" = "out.pdf"
  /\ pdf_output_filepath "out.pdf" = "out.pdf"
  /\ Py.splitext "scans/out.pdf" = ("scans/out", ".pdf")
  /\ Py.splitext "scans.d/.hidden" = ("scans.d/.hidden", "")
  /\ pdf_output_filepath "scans.d/out" = "scans.d/out".
Proof. repeat split. Qed.

(** * Further properties *)

(** ** Errors and results of the parser *)

Section ParserResults.

Import Parser.

Lemma string_append_cons (x : ascii) (a b : string) :
  String x a +:+ b = String x (a +:+ b).
Proof. reflexivity. Qed.

Lemma string_append_assoc (a b c : string) : (a +:+ b) +:+ c = a +:+ (b +:+ c).
Proof.
  induction a as [|x a IH]; [reflexivity|].
  now rewrite !string_append_cons, IH.
Qed.

Lemma string_append_empty (a : string) : a +:+ "" = a.
Proof.
  induction a as [|x a IH]; [reflexivity|]. now rewrite string_append_cons, IH.
Qed.

Lemma string_append_cancel (a b c : string) : a +:+ b = a +:+ c -> b = c.
Proof.
  induction a as [|x a IH]; [easy|]. rewrite !string_append_cons. intros [= H]. auto.
Qed.

(** Plain characters change nothing outside a pair. *)
Lemma loop_no_percent (q : string) : forall (i : Z) (l : locals),
  Py.contains "%" q = false ->
  percent_char_read l = false ->
  loop q i l = Return l.
Proof.
  induction q as [|c q IH]; intros i l Hq Hread; simpl; [reflexivity|].
  simpl in Hq. apply orb_false_elim in Hq as [Hc Hq].
  unfold body. rewrite Hc, Hread. simpl. now apply IH.
Qed.

(** After the style, [%%] pairs keep the style and only move the recorded
    position. *)
Lemma loop_escaped_only_styled_fuel (n : nat) :
  forall (q : string) (i : Z) (st : string) (pos : option Z),
    (String.length q <= n)%nat ->
    escaped_only q = true ->
    exists pos' : option Z,
      loop q i {| style := Some st; page_style_pos := pos; percent_char_read := false |}
      = Return {| style := Some st; page_style_pos := pos'; percent_char_read := false |}.
Proof.
  induction n as [|n IH]; intros q i st pos Hn Hq.
  - destruct q; [now exists pos | simpl in Hn; lia].
  - destruct q as [|c q]; [now exists pos|].
    simpl in Hq. simpl loop. unfold body at 1. simpl.
    destruct (Ascii.eqb c "%") eqn:Hc; simpl.
    + destruct q as [|d q]; [discriminate|].
      apply andb_prop in Hq as [Hd Hq].
      simpl loop. unfold body at 1. simpl. rewrite Hd. simpl.
      apply IH; [simpl in Hn; lia | exact Hq].
    + apply IH; [simpl in Hn; lia | exact Hq].
Qed.

(** X1: an unknown character after an unescaped [%], met before any style,
    raises [invalid formatting style], whatever follows it. *)
Theorem parse_invalid_style (p rest : string) (c : ascii) :
  escaped_only p = true ->
  permitted c = false ->
  c <> "%"%char ->
  parse_page_number_formatting_string (p +:+ String "%" (String c rest))
  = Raise (invalid_style c).
Proof.
  intros Hp Hc Hpercent. unfold parse_page_number_formatting_string.
  rewrite loop_append, (loop_escaped_only p 0 Hp). cbn [bind].
  simpl loop. unfold body. simpl.
  apply Ascii.eqb_neq in Hpercent. now rewrite Hpercent, Hc.
Qed.

Lemma parse_invalid_style_witness :
  parse_page_number_formatting_string "p.%%%d of 9" = Raise (invalid_style "d").
Proof.
  apply (parse_invalid_style "p.%%" " of 9" "d"); [reflexivity | reflexivity | discriminate].
Defined.

(** X2: once a style has been read, the next unescaped [%] followed by any
    character other than [%] raises [only one page numbering style], also
    when that character is no style at all. *)
Theorem parse_second_directive (p q rest : string) (c d : ascii) :
  escaped_only p = true ->
  permitted c = true ->
  escaped_only q = true ->
  d <> "%"%char ->
  parse_page_number_formatting_string
    ((p +:+ String "%" (String c "")) +:+ q +:+ String "%" (String d rest))
  = Raise only_one_style.
Proof.
  intros Hp Hc Hq Hd. unfold parse_page_number_formatting_string.
  rewrite loop_append, (loop_style_token p c Hp Hc). cbn [bind].
  rewrite loop_append.
  destruct (loop_escaped_only_styled_fuel (String.length q) q
              (0 + Py.len (p +:+ String "%" (String c "")))
              (String "/" (String c "")) (Some (Py.len p)) (le_n _) Hq) as [pos' ->].
  cbn [bind]. simpl loop. unfold body. simpl.
  apply Ascii.eqb_neq in Hd. now rewrite Hd.
Qed.

Lemma parse_second_directive_witness :
  parse_page_number_formatting_string "%D%%%z" = Raise only_one_style.
Proof.
  apply (parse_second_directive "" "%%" "" "D" "z"); try reflexivity. discriminate.
Defined.

(** X3: plain text after the style token raises [no suffixes are permitted]. *)
Theorem parse_plain_suffix (p q : string) (c : ascii) :
  escaped_only p = true ->
  permitted c = true ->
  Py.contains "%" q = false ->
  q <> "" ->
  parse_page_number_formatting_string ((p +:+ String "%" (String c "")) +:+ q)
  = Raise no_suffixes.
Proof.
  intros Hp Hc Hq Hne. unfold parse_page_number_formatting_string.
  rewrite loop_append, (loop_style_token p c Hp Hc). cbn [bind].
  rewrite (loop_no_percent q _ _ Hq) by reflexivity. cbn [bind page_style_pos].
  rewrite bool_decide_eq_true_2 by discriminate.
  rewrite bool_decide_eq_true_2; [reflexivity|].
  rewrite !len_append. intros [= H].
  destruct q as [|x q]; [now apply Hne|].
  unfold Py.len in H. simpl String.length in H. lia.
Qed.

Lemma parse_plain_suffix_witness :
  parse_page_number_formatting_string "A-%D." = Raise no_suffixes.
Proof.
  apply (parse_plain_suffix "A-" "." "D"); try reflexivity. discriminate.
Defined.

End ParserResults.

Section ParserShape.

Import Parser.

(** A style is a slash and one of the five permitted characters. *)
Lemma body_style_permitted (i : Z) (c : ascii) (l l' : locals) :
  (forall st, style l = Some st ->
     exists d, permitted d = true /\ st = String "/" (String d "")) ->
  body i c l = Return l' ->
  forall st, style l' = Some st ->
    exists d, permitted d = true /\ st = String "/" (String d "").
Proof.
  intros Hl. unfold body.
  destruct (Ascii.eqb c "%" && negb (percent_char_read l)); [now intros [= <-]|].
  destruct (percent_char_read l); [|now intros [= <-]].
  destruct (Ascii.eqb c "%"); [now intros [= <-]|].
  destruct (bool_decide (style l <> None)); [discriminate|].
  destruct (permitted c) eqn:Hc; [|discriminate].
  cbn [bind]. intros [= <-] st [= <-]. now exists c.
Qed.

Lemma loop_style_permitted (rest : string) : forall (i : Z) (l l' : locals),
  (forall st, style l = Some st ->
     exists d, permitted d = true /\ st = String "/" (String d "")) ->
  loop rest i l = Return l' ->
  forall st, style l' = Some st ->
    exists d, permitted d = true /\ st = String "/" (String d "").
Proof.
  induction rest as [|c rest IH]; intros i l l' Hl; simpl.
  - now intros [= <-].
  - destruct (body i c l) as [l1|] eqn:Hbody; [|discriminate]. cbn [bind].
    apply IH. now apply (body_style_permitted i c l).
Qed.

(** X4: the style the parser returns is ['/'] followed by one of [D], [R],
    [r], [A], [a] - a name pikepdf can store under [/S]. *)
Theorem parsed_style_permitted (page_format prefix st : string) :
  parse_page_number_formatting_string page_format = Return (prefix, Some st) ->
  exists c : ascii, permitted c = true /\ st = String "/" (String c "").
Proof.
  unfold parse_page_number_formatting_string.
  destruct (loop page_format 0 initial) as [l|] eqn:Hloop; [|discriminate].
  cbn [bind]. destruct (_ && _); [discriminate|]. intros [= _ Hstyle].
  apply (loop_style_permitted page_format 0 initial l); [discriminate | exact Hloop | exact Hstyle].
Qed.

Lemma parsed_style_permitted_witness :
  exists c : ascii, permitted c = true /\ "/r" = String "/" (String c "").
Proof. apply (parsed_style_permitted "No. %r" "No. " "/r"). reflexivity. Defined.

(** What the local variables say about the text read so far: inside a pair
    the text ends in [%]; without a style no position is recorded; a recorded
    position is that of a [%] with a character after it. *)
Lemma body_shape (done : string) (c : ascii) (l l' : locals) :
  (percent_char_read l = true -> exists d, done = d +:+ "%") ->
  (style l = None -> page_style_pos l = None) ->
  (forall k, page_style_pos l = Some k ->
     exists d b t, done = d +:+ String "%" (String b t) /\ Py.len d = k) ->
  body (Py.len done) c l = Return l' ->
  (percent_char_read l' = true -> exists d, done +:+ String c "" = d +:+ "%")
  /\ (style l' = None -> page_style_pos l' = None)
  /\ (forall k, page_style_pos l' = Some k ->
        exists d b t, done +:+ String c "" = d +:+ String "%" (String b t)
                      /\ Py.len d = k).
Proof.
  intros Hread Hnone Hpos.
  assert (Hextend : forall k, page_style_pos l = Some k ->
            exists d b t, done +:+ String c "" = d +:+ String "%" (String b t)
                          /\ Py.len d = k).
  { intros k Hk. destruct (Hpos k Hk) as (d & b & t & -> & Hd).
    exists d, b, (t +:+ String c ""). split; [|exact Hd].
    now rewrite string_append_assoc. }
  unfold body. destruct (Ascii.eqb_spec c "%") as [->|Hc]; simpl.
  - destruct (percent_char_read l) eqn:Hl; simpl.
    + intros [= <-]. cbn [percent_char_read style page_style_pos].
      destruct (Hread eq_refl) as [d ->].
      split; [discriminate|]. split.
      * intros Hstyle. rewrite bool_decide_eq_false_2; [now apply Hnone|].
        intros H. now apply H.
      * intros k. destruct (style l) as [st|] eqn:Hstyle.
        -- rewrite bool_decide_eq_true_2 by discriminate. intros [= <-].
           exists d, "%"%char, "". split.
           ++ now rewrite string_append_assoc.
           ++ rewrite len_append. unfold Py.len. simpl String.length. lia.
        -- rewrite bool_decide_eq_false_2 by (intros H; now apply H).
           apply Hextend.
    + intros [= <-]. cbn [percent_char_read style page_style_pos].
      split; [intros _; now exists done|]. split; [exact Hnone | exact Hextend].
  - destruct (percent_char_read l) eqn:Hl; simpl.
    + destruct (bool_decide (style l <> None)); [discriminate|].
      destruct (permitted c); [|discriminate].
      cbn [bind]. intros [= <-]. cbn [percent_char_read style page_style_pos].
      destruct (Hread eq_refl) as [d ->].
      split; [discriminate|]. split; [discriminate|].
      intros k [= <-].
      exists d, c, "". split.
      * now rewrite string_append_assoc.
      * rewrite len_append. unfold Py.len. simpl String.length. lia.
    + intros [= <-]. split; [congruence|]. split; [exact Hnone | exact Hextend].
Qed.

Lemma loop_shape (rest : string) : forall (done : string) (l l' : locals),
  (percent_char_read l = true -> exists d, done = d +:+ "%") ->
  (style l = None -> page_style_pos l = None) ->
  (forall k, page_style_pos l = Some k ->
     exists d b t, done = d +:+ String "%" (String b t) /\ Py.len d = k) ->
  loop rest (Py.len done) l = Return l' ->
  (style l' = None -> page_style_pos l' = None)
  /\ (forall k, page_style_pos l' = Some k ->
        exists d b t, done +:+ rest = d +:+ String "%" (String b t)
                      /\ Py.len d = k).
Proof.
  induction rest as [|c rest IH]; intros done l l' Hread Hnone Hpos; simpl.
  - intros [= <-]. rewrite string_append_empty. now split.
  - destruct (body (Py.len done) c l) as [l1|] eqn:Hbody; [|discriminate].
    cbn [bind]. intros Hloop.
    destruct (body_shape done c l l1 Hread Hnone Hpos Hbody) as (H1 & H2 & H3).
    replace (done +:+ String c rest) with ((done +:+ String c "") +:+ rest)
      by now rewrite string_append_assoc.
    apply (IH (done +:+ String c "") l1 l' H1 H2 H3).
    replace (Py.len (done +:+ String c "")) with (Py.len done + 1); [exact Hloop|].
    rewrite len_append. unfold Py.len. simpl String.length. lia.
Qed.

(** X5: when the parser returns without a style, the prefix is the whole
    formatting string; when it returns a style, the formatting string is the
    prefix followed by [%] and exactly one more character. *)
Theorem parse_result_shape (page_format prefix : string) (style : option string) :
  parse_page_number_formatting_string page_format = Return (prefix, style) ->
  match style with
  | None => prefix = page_format
  | Some _ => exists b : ascii, page_format = prefix +:+ String "%" (String b "")
  end.
Proof.
  unfold parse_page_number_formatting_string.
  destruct (loop page_format 0 initial) as [l|] eqn:Hloop; [|discriminate].
  cbn [bind].
  destruct (loop_shape page_format "" initial l) as [Hnone Hpos];
    [discriminate | reflexivity | discriminate | exact Hloop |].
  change ("" +:+ page_format) with page_format in Hpos.
  destruct (page_style_pos l) as [k|] eqn:Hk.
  - rewrite bool_decide_eq_true_2 by discriminate. simpl andb.
    destruct (decide (Some k = Some (Py.len page_format - 2))) as [Heq|Hne].
    + rewrite (bool_decide_eq_false_2 _ (fun H => H Heq)).
      injection Heq as Hlast. intros [= <- <-].
      destruct (Hpos k eq_refl) as (d & b & t & Hformat & Hd).
      assert (t = "") as ->.
      { rewrite Hformat, len_append in Hlast. unfold Py.len in Hlast, Hd.
        simpl String.length in Hlast.
        destruct t; [reflexivity | simpl String.length in Hlast; lia]. }
      assert (Hprefix : Py.slice_to page_format (Some k) = d).
      { rewrite Hformat, <- Hd. apply slice_to_len_append. }
      unfold Py.slice_to in Hprefix. rewrite Hprefix. destruct (Parser.style l).
      * now exists b.
      * specialize (Hnone eq_refl). discriminate.
    + rewrite bool_decide_eq_true_2 by exact Hne. discriminate.
  - rewrite bool_decide_eq_false_2 by (intros H; now apply H). simpl andb.
    intros [= <- <-]. destruct (Parser.style l) as [st|] eqn:Hstyle; [|reflexivity].
    destruct (loop_position page_format 0 initial l) as (k & Hk' & _);
      [intros H; now destruct H | exact Hloop | now rewrite Hstyle |].
    congruence.
Qed.

Lemma parse_result_shape_witness :
  exists b : ascii, "Plate %A" = "Plate " +:+ String "%" (String b "").
Proof. apply (parse_result_shape "Plate %A" "Plate " (Some "/A")). reflexivity. Defined.

End ParserShape.

(** ** [process_image] and the loop, in general *)

Section LoopInGeneral.

Context `{C : Collaborators}.

(** X6: when [process_image] returns, the quality was an [int] between 1
    and 100, the input file opened, and the file system is the one that
    [image.save] returned for the output path: nothing else was written. *)
Theorem process_image_returns (g : Globals) (fs fs' : FS)
    (input_filepath output_filepath : string) (quality : pyobj) :
  process_image g fs input_filepath output_filepath quality = Return fs' ->
  (exists q : Z, quality = PyInt q /\ 1 <= q <= 100)
  /\ exists (image : Image) (options : save_options),
       Image_open fs input_filepath = Return image
       /\ save_fp options = output_filepath
       /\ Image_save fs (to_true_colour image) options = Return fs'.
Proof.
  unfold process_image.
  destruct quality as [q| | | ]; simpl; try discriminate.
  destruct (Z.leb_spec 1 q), (Z.ltb_spec q 101); simpl; try discriminate.
  destruct (Image_open fs input_filepath) as [image|]; simpl; [|discriminate].
  intros Hsave. split; [exists q; split; [reflexivity | lia]|].
  exists image, (save_call g image output_filepath (PyInt q)).
  split; [reflexivity|]. split; [apply save_call_fp | exact Hsave].
Qed.

(** X7: an invalid quality raises [ValueError] before the input file is looked
    at: the result does not depend on the file system. *)
Theorem process_image_invalid_quality (g : Globals) (fs : FS)
    (input_filepath output_filepath : string) (q : Z) :
  q < 1 \/ 100 < q ->
  process_image g fs input_filepath output_filepath (PyInt q)
  = Raise invalid_quality_error.
Proof.
  intros Hq. unfold process_image, invalid_quality.
  destruct (Z.leb_spec 1 q), (Z.ltb_spec q 101); simpl; try reflexivity. lia.
Qed.

(** X8: the same density goes to [dpi] and to [jfif_density], and the unit is
    1 (pixels per inch) unless the image is a JPEG without a [dpi] entry that
    has both JFIF entries, which are then passed on. *)
Theorem save_call_density (g : Globals) (image : Image) (output_filepath : string)
    (quality : pyobj) :
  let options := save_call g image output_filepath quality in
  save_dpi options = save_jfif_density options
  /\ (save_jfif_unit options = PyInt 1
      \/ (im_info image !! "dpi" = None
          /\ Py.upper (im_format image) = "JPEG"
          /\ im_info image !! "jfif_density" = Some (save_jfif_density options)
          /\ im_info image !! "jfif_unit" = Some (save_jfif_unit options))).
Proof.
  unfold save_call, image_density.
  destruct (im_info image !! "dpi") as [dpi|]; simpl; [now split; [|left]|].
  destruct (String.eqb_spec (Py.upper (im_format image)) "JPEG") as [Hjpeg|];
    simpl; [|now split; [|left]].
  destruct (im_info image !! "jfif_density") as [density|]; simpl;
    [|now split; [|left]].
  destruct (im_info image !! "jfif_unit") as [unit|]; simpl; [|now split; [|left]].
  split; [reflexivity|]. now right.
Qed.

(** What one pass of the loop can do to the state. *)
Lemma iteration_cases (g : Globals) (temp_dir : string) (index_length : Z)
    (input_file : string) (st st' : loop_state) :
  iteration g temp_dir index_length input_file st = Return st' ->
  (image_files st' = image_files st
   /\ input_file_counter st' = input_file_counter st)
  \/ (exists image : Image,
        Image_open (fs st) input_file = Return image
        /\ image_files st'
           = image_files st
             ++ [chosen_file g image (fs st') input_file
                   (temp_output_file temp_dir index_length (input_file_counter st))]
        /\ input_file_counter st' = input_file_counter st + 1).
Proof.
  unfold iteration.
  destruct (Image_open (fs st) input_file) as [image|e] eqn:Hopen.
  - destruct (process_image _ _ _ _ _) as [fs'|e].
    + intros [= <-]. right. exists image. cbn [image_files input_file_counter fs].
      now repeat split.
    + destruct e; try discriminate; intros [= <-]; left; now split.
  - destruct e; try discriminate; intros [= <-]; left; now split.
Qed.

Lemma process_files_growth (g : Globals) (temp_dir : string)
    (index_length : Z) (files : list string) (st st' : loop_state) :
  process_files g temp_dir index_length files st = Return st' ->
  exists opened chosens : list string,
    sublist opened files
    /\ image_files st' = image_files st ++ chosens
    /\ chosen_in_order temp_dir index_length (input_file_counter st) opened chosens
    /\ input_file_counter st' = input_file_counter st + Z.of_nat (length chosens).
Proof.
  revert st. induction files as [|p files IH]; intros st; simpl.
  - intros [= <-]. exists [], []. rewrite app_nil_r.
    repeat split; [constructor | constructor | simpl; lia].
  - destruct (iteration g temp_dir index_length p st) as [st1|] eqn:Hiter;
      [|discriminate].
    cbn [bind]. intros Hrun.
    destruct (IH st1 Hrun) as (opened & chosens & Hsub & Hfiles & Horder & Hcounter).
    destruct (iteration_cases _ _ _ _ _ _ Hiter)
      as [(Hsame & Hcount)|(image & _ & Hgrown & Hcount)].
    + exists opened, chosens. rewrite Hfiles, Hsame, Hcounter, Hcount.
      repeat split; [now apply sublist_cons | now rewrite <- Hcount].
    + exists (p :: opened), (chosen_file g image (fs st1) p
                 (temp_output_file temp_dir index_length (input_file_counter st))
               :: chosens).
      rewrite Hfiles, Hgrown, <- app_assoc, Hcounter, Hcount. simpl app.
      repeat split.
      * now apply sublist_skip.
      * constructor; [|now rewrite <- Hcount].
        unfold chosen_file. destruct (keep_original _ _ _ _ _); [now left | now right].
      * simpl length. lia.
Qed.

(** X9: however the inputs behave, when the loop returns, [image_files] has
    grown by one chosen path per increment of [input_file_counter]; the
    chosen paths follow a subsequence of the inputs, and the [n]-th of them is
    that input or the recompressed file numbered [n]. *)
Theorem process_files_bookkeeping (g : Globals) (temp_dir : string)
    (index_length : Z) (files : list string) (st st' : loop_state) :
  process_files g temp_dir index_length files st = Return st' ->
  exists opened chosens : list string,
    sublist opened files
    /\ image_files st' = image_files st ++ chosens
    /\ chosen_in_order temp_dir index_length (input_file_counter st) opened chosens
    /\ input_file_counter st' = input_file_counter st + Z.of_nat (length chosens).
Proof. apply process_files_growth. Qed.

(** X10: with forced recompression, the list grows by the recompressed files
    only, numbered consecutively from [input_file_counter]. *)
Theorem process_files_forced (g : Globals) (temp_dir : string)
    (index_length : Z) (files : list string) (st st' : loop_state) :
  recompress_all_jpegs g = true ->
  process_files g temp_dir index_length files st = Return st' ->
  image_files st'
  = image_files st
    ++ map (temp_output_file temp_dir index_length)
         (seqZ (input_file_counter st)
            (input_file_counter st' - input_file_counter st)).
Proof.
  intros Hforced. revert st. induction files as [|p files IH]; intros st; simpl.
  - intros [= <-]. rewrite Z.sub_diag. simpl. now rewrite app_nil_r.
  - destruct (iteration g temp_dir index_length p st) as [st1|] eqn:Hiter;
      [|discriminate].
    cbn [bind]. intros Hrun.
    destruct (process_files_growth _ _ _ _ _ _ Hrun)
      as (_ & chosens & _ & _ & _ & Hcounter).
    rewrite (IH st1 Hrun).
    destruct (iteration_cases _ _ _ _ _ _ Hiter)
      as [(Hsame & Hcount)|(image & _ & Hgrown & Hcount)].
    + now rewrite Hsame, Hcount.
    + rewrite Hgrown, <- app_assoc. f_equal.
      unfold chosen_file, keep_original. rewrite Hforced, andb_false_r. simpl.
      replace (input_file_counter st' - input_file_counter st)
        with (Z.succ (input_file_counter st' - input_file_counter st1)) by lia.
      rewrite (seqZ_cons (input_file_counter st)) by lia. simpl.
      now rewrite Z.pred_succ, Hcount, Z.add_1_r.
Qed.

(** X11: [FileNotFoundError] and [UnidentifiedImageError] never leave the
    loop, whether [Image.open] or [process_image] raised them. *)
Theorem process_files_raises (g : Globals) (temp_dir : string)
    (index_length : Z) (files : list string) (st : loop_state)
    (printed_so_far : list event) (e : exn) :
  process_files g temp_dir index_length files st = Raise (printed_so_far, e) ->
  e <> FileNotFoundError /\ e <> UnidentifiedImageError.
Proof.
  revert st. induction files as [|p files IH]; intros st; simpl.
  - discriminate.
  - destruct (iteration g temp_dir index_length p st) as [st1|[tr e1]] eqn:Hiter;
      cbn [bind].
    + apply IH.
    + intros [= -> ->]. revert Hiter. unfold iteration.
      destruct (Image_open (fs st) p) as [image|e1].
      * cbv zeta. destruct (process_image _ _ _ _ _) as [fs'|e1]; [discriminate|].
        destruct e1; try discriminate; intros [= _ <-]; split; discriminate.
      * destruct e1; try discriminate; intros [= _ <-]; split; discriminate.
Qed.

(** The loop prints messages only, also when an exception ends it. *)
Lemma process_files_messages (g : Globals) (temp_dir : string)
    (index_length : Z) (files : list string) : forall st : loop_state,
  only_messages (printed st) ->
  match process_files g temp_dir index_length files st with
  | Return st' => only_messages (printed st')
  | Raise (printed_so_far, _) => only_messages printed_so_far
  end.
Proof.
  induction files as [|p files IH]; intros st Hst; simpl; [exact Hst|].
  destruct (iteration g temp_dir index_length p st) as [st1|[tr e]] eqn:Hiter;
    cbn [bind].
  - apply IH. revert Hiter. unfold iteration, handle.
    destruct (Image_open (fs st) p) as [image|e1].
    + destruct (process_image _ _ _ _ _) as [fs'|e2].
      * intros [= <-]. cbn [printed].
        apply only_messages_app; [exact Hst | repeat constructor].
      * destruct e2; try discriminate; intros [= <-]; cbn [printed];
          repeat (apply only_messages_app; [|repeat constructor]); exact Hst.
    + destruct e1; try discriminate; intros [= <-]; cbn [printed];
        (apply only_messages_app; [exact Hst | repeat constructor]).
  - revert Hiter. unfold iteration, handle.
    destruct (Image_open (fs st) p) as [image|e1].
    + destruct (process_image _ _ _ _ _) as [fs'|e2]; [discriminate|].
      destruct e2; try discriminate; intros [= <- _]; cbn [printed];
        (apply only_messages_app; [exact Hst | repeat constructor]).
    + destruct e1; try discriminate; intros [= <- _]; exact Hst.
Qed.

End LoopInGeneral.

(** ** The document edits and the whole run, in general *)

Section RunInGeneral.

Context `{C : Collaborators}.

Lemma media_box_pages (pdf pdf' : Pdf) (k : nat) :
  pages pdf' = pages pdf -> media_box pdf' 0 k = media_box pdf 0 k.
Proof. unfold media_box. now intros ->. Qed.

(** X12: the post-processor returns only if the first page of the document
    has a [/MediaBox] array of at least four entries - also when no
    magnification was asked for, because the box is read before the options
    are looked at. *)
Theorem post_process_needs_media_box (s : settings) (pdf pdf' : Pdf) :
  post_process s pdf = Return pdf' ->
  exists (page : gmap string pdfobj) (box : list pdfobj),
    pages pdf !! 0%nat = Some page
    /\ page !! "/MediaBox" = Some (PdfArray box)
    /\ (4 <= length box)%nat.
Proof.
  unfold post_process, media_box.
  destruct (pages pdf !! 0%nat) as [page|] eqn:Hpage; [|discriminate].
  destruct (page !! "/MediaBox") as [[| | | |box|]|] eqn:Hbox; try discriminate.
  destruct (box !! 2%nat) eqn:H2; [|discriminate].
  destruct (box !! 3%nat) eqn:H3; [|discriminate].
  intros _. exists page, box. split; [reflexivity|]. split; [exact Hbox|].
  apply lookup_lt_Some in H3. lia.
Qed.

(** Without pages, or without a box on the first page, the exception is not
    caught. *)
Example post_process_without_pages (s : settings) (root : gmap string pdfobj) :
  post_process s {| Root := root; pages := [] |} = Raise IndexError
  /\ post_process s {| Root := root; pages := [∅] |} = Raise (KeyError "/MediaBox").
Proof. split; reflexivity. Qed.

(** X13: the post-processor leaves the pages and every entry of the root other
    than [/PageLabels] and [/OpenAction] as they are. *)
Theorem post_process_frame (s : settings) (pdf pdf' : Pdf) :
  post_process s pdf = Return pdf' ->
  pages pdf' = pages pdf
  /\ forall key : string,
       key <> "/PageLabels" -> key <> "/OpenAction" ->
       Root pdf' !! key = Root pdf !! key.
Proof.
  unfold post_process.
  destruct (media_box pdf 0 2); [|discriminate].
  destruct (media_box pdf 0 3); [|discriminate].
  cbn [bind]. intros [= <-]. split; [reflexivity|].
  intros key H1 H2. cbn [Root].
  destruct (Py.truthy_opt (the_magnification s)); now simplify_map_eq.
Qed.

(** X14: applying the post-processor to its own result changes nothing. *)
Theorem post_process_idempotent (s : settings) (pdf pdf' : Pdf) :
  post_process s pdf = Return pdf' ->
  post_process s pdf' = Return pdf'.
Proof.
  intros Hpost.
  assert (Hpages : pages pdf' = pages pdf).
  { revert Hpost. unfold post_process.
    destruct (media_box pdf 0 2); [|discriminate].
    destruct (media_box pdf 0 3); [|discriminate].
    now intros [= <-]. }
  revert Hpost. unfold post_process.
  rewrite !(media_box_pages pdf pdf' _ Hpages).
  destruct (media_box pdf 0 2); [|discriminate].
  destruct (media_box pdf 0 3) as [height|]; [|discriminate].
  cbn [bind]. intros [= <-]. cbn [Root pages]. do 2 f_equal.
  destruct (Py.truthy_opt (the_magnification s)).
  - apply map_eq. intros key.
    destruct (decide (key = "/OpenAction")) as [->|];
      [|destruct (decide (key = "/PageLabels")) as [->|]]; now simplify_map_eq.
  - apply insert_insert_eq.
Qed.

(** Each option check that fails prints one line. *)
Lemma check_options_one_line (args : Args) (printed : list event) :
  check_options args = Raise printed -> length printed = 1%nat.
Proof.
  unfold check_options.
  destruct (check_quality args) as [g|p1] eqn:H1; cbn [bind].
  2:{ intros [= <-]. revert H1. unfold check_quality.
      destruct (Py.truthy_opt (quality args)); [|discriminate].
      destruct (int_of_str _) as [q|]; [|now intros [= <-]].
      destruct (negb _); [now intros [= <-] | discriminate]. }
  destruct (check_magnification args) as [m|p2] eqn:H2; cbn [bind].
  2:{ intros [= <-]. revert H2. unfold check_magnification.
      destruct (magnification args) as [|? [|? ?]]; try discriminate.
      now intros [= <-]. }
  destruct (check_page_mode args) as [pm|p3] eqn:H3; cbn [bind].
  2:{ intros [= <-]. revert H3. unfold check_page_mode.
      destruct (page_mode args) as [|? [|? ?]]; try discriminate.
      now intros [= <-]. }
  destruct (check_page_numbering args) as [numbering|p4] eqn:H4; cbn [bind].
  2:{ intros [= <-]. revert H4. unfold check_page_numbering.
      destruct (page_numbering args); [|discriminate].
      destruct (Parser.parse_page_number_formatting_string _) as [[? ?]|];
        [discriminate | now intros [= <-]]. }
  destruct (check_first_page args) as [first|p5] eqn:H5; cbn [bind]; [discriminate|].
  intros [= <-]. revert H5. unfold check_first_page.
  destruct (Py.truthy_opt (first_page_number args)); [|discriminate].
  destruct (int_of_str _) as [n|]; [|now intros [= <-]].
  destruct (n <? 1); [now intros [= <-] | discriminate].
Qed.

Lemma check_options_messages (args : Args) (printed : list event) :
  check_options args = Raise printed -> only_messages printed.
Proof.
  unfold check_options, check_quality, check_magnification, check_page_mode,
    check_page_numbering, check_first_page.
  repeat (match goal with
          | |- context [match ?x with _ => _ end] => destruct x
          | |- context [if ?x then _ else _] => destruct x
          end; cbn [bind]; try discriminate;
          try (intros [= <-]; repeat constructor)).
Qed.

(** X15: a configuration error ends the run at once: one line is printed and
    [quit()] is called, before the temporary directory is announced or any
    input is processed. *)
Theorem main_configuration_error (args : Args) (temp_dir : string) (fs0 : FS)
    (printed : list event) :
  check_options args = Raise printed ->
  main args temp_dir fs0 = {| trace := printed; how := quit |}
  /\ length printed = 1%nat.
Proof.
  intros Hoptions. split.
  - unfold main. now rewrite Hoptions.
  - now apply check_options_one_line with args.
Qed.

(** X16: accepted options leave a quality between 1 and 100, a first page
    number of at least 1, at most one magnification and one page mode, and
    never force recompression. *)
Theorem accepted_settings (args : Args) (s : settings) :
  check_options args = Return s ->
  1 <= jpeg_compression_quality (globals s) <= 100
  /\ 1 <= first_page s
  /\ recompress_all_jpegs (globals s) = false
  /\ the_magnification s = head (magnification args)
  /\ (length (magnification args) <= 1)%nat
  /\ (length (page_mode args) <= 1)%nat.
Proof.
  intros Hoptions. split; [now apply check_options_quality with args|].
  revert Hoptions. unfold check_options.
  destruct (check_quality args) as [g|] eqn:Hg; [|discriminate].
  destruct (check_magnification args) as [m|] eqn:Hm; [|discriminate].
  destruct (check_page_mode args) as [pm|] eqn:Hpm; [|discriminate].
  destruct (check_page_numbering args); [|discriminate].
  destruct (check_first_page args) as [first|] eqn:Hfirst; [|discriminate].
  cbn [bind]. intros [= <-]. cbn [first_page globals the_magnification].
  repeat split.
  - revert Hfirst. unfold check_first_page.
    destruct (Py.truthy_opt (first_page_number args)); [|now intros [= <-]].
    destruct (int_of_str _) as [n|]; [|discriminate].
    destruct (Z.ltb_spec n 1); [discriminate|]. intros [= <-]. lia.
  - revert Hg. unfold check_quality.
    destruct (Py.truthy_opt (quality args)); [|now intros [= <-]].
    destruct (int_of_str _) as [q|]; [|discriminate].
    destruct (negb _); [discriminate | now intros [= <-]].
  - revert Hm. unfold check_magnification.
    destruct (magnification args) as [|? [|? ?]]; try discriminate; now intros [= <-].
  - revert Hm. unfold check_magnification.
    destruct (magnification args) as [|? [|? ?]]; try discriminate; simpl; lia.
  - revert Hpm. unfold check_page_mode.
    destruct (page_mode args) as [|? [|? ?]]; try discriminate; simpl; lia.
Qed.

Lemma chosen_in_order_length (temp_dir : string) (index_length n : Z)
    (opened chosens : list string) :
  chosen_in_order temp_dir index_length n opened chosens ->
  length opened = length chosens.
Proof. induction 1; simpl; congruence. Qed.

Lemma filter_only_messages (events : list event) :
  only_messages events -> List.filter is_assembly events = [].
Proof.
  induction 1 as [|e events He _ IH]; simpl; [reflexivity|]. now rewrite He.
Qed.

(** X17: in every run [img2pdf.convert] is called at most once and never with an
    empty list, [pdf.save] is called at most once, only after
    [img2pdf.convert], and only with the output path of lines 246-248; a run
    that reaches the end of the script has made both calls. *)
Theorem main_assembly_calls (args : Args) (temp_dir : string) (fs0 : FS) :
  let calls := List.filter is_assembly (trace (main args temp_dir fs0)) in
  (calls = [] /\ how (main args temp_dir fs0) <> finished)
  \/ (exists files a t pm,
        files <> []
        /\ calls = [img2pdf_convert_called files a t pm]
        /\ how (main args temp_dir fs0) <> finished)
  \/ (exists files a t pm pdf,
        files <> []
        /\ calls = [img2pdf_convert_called files a t pm;
                    pdf_save_called pdf (pdf_output_filepath (output_file args))]).
Proof.
  unfold main.
  destruct (check_options args) as [s|msgs] eqn:Hoptions.
  2:{ left. cbn [trace how]. split; [|discriminate].
      apply filter_only_messages. now apply check_options_messages with args. }
  pose proof (process_files_messages (globals s) temp_dir
                (temp_image_filename_index_length args) (input_files args)
                (loop_start (globals s) temp_dir fs0)) as Hmessages.
  destruct (process_files _ _ _ _ _) as [st|[msgs e]].
  2:{ left. cbn [trace how]. split; [|discriminate].
      apply filter_only_messages, Hmessages.
      unfold loop_start. cbn [printed]. destruct (DEBUG (globals s)); repeat constructor. }
  assert (Hprinted : List.filter is_assembly (printed st) = []).
  { apply filter_only_messages, Hmessages.
    unfold loop_start. cbn [printed]. destruct (DEBUG (globals s)); repeat constructor. }
  destruct (image_files st) as [|file files] eqn:Hfiles.
  { left. cbn [trace how]. split; [|discriminate].
    rewrite List.filter_app, Hprinted. reflexivity. }
  assert (Hlisting :
    List.filter is_assembly
      (if DEBUG (globals s)
       then stdout "The following files will be combined into a PDF file:"
            :: map stdout (file :: files)
       else []) = []).
  { apply filter_only_messages. destruct (DEBUG (globals s)); [|constructor].
    constructor; [reflexivity|]. apply Forall_map, Forall_true. reflexivity. }
  destruct (post_process s _) as [pdf|e].
  2:{ right. left. exists (file :: files), (the_author s), (the_title s), (the_page_mode s).
      cbn [trace how]. split; [discriminate|]. split; [|discriminate].
      now rewrite !List.filter_app, Hprinted, Hlisting. }
  right. right.
  exists (file :: files), (the_author s), (the_title s), (the_page_mode s), pdf.
  split; [discriminate|].
  destruct (pdf_save (fs st) pdf _) as [fs'|e]; [|destruct e]; cbn [trace];
    now rewrite !List.filter_app, Hprinted, Hlisting.
Qed.


End RunInGeneral.

(** ** File names *)

Lemma contains_append (c : ascii) (a b : string) :
  Py.contains c (a +:+ b) = Py.contains c a || Py.contains c b.
Proof.
  induction a as [|x a IH]; [reflexivity|].
  rewrite string_append_cons. simpl. now rewrite IH, orb_assoc.
Qed.

(** X19: the path the document is written to always contains a full stop and
    starts with the path given on the command line, and normalising it a
    second time changes nothing. *)
Theorem pdf_output_filepath_normal (output_file : string) :
  Py.contains "." (pdf_output_filepath output_file) = true
  /\ (exists suffix : string, pdf_output_filepath output_file = output_file +:+ suffix)
  /\ pdf_output_filepath (pdf_output_filepath output_file)
     = pdf_output_filepath output_file.
Proof.
  destruct (pdf_output_filepath_spec output_file) as [Hnone Hsome].
  assert (Hdot : Py.contains "." (pdf_output_filepath output_file) = true).
  { destruct (Py.contains "." output_file) eqn:Hc.
    - now rewrite (Hsome eq_refl).
    - rewrite (Hnone eq_refl), contains_append. apply orb_true_r. }
  split; [exact Hdot|]. split.
  - destruct (Py.contains "." output_file).
    + exists "". now rewrite (Hsome eq_refl), string_append_empty.
    + exists ".pdf". now rewrite (Hnone eq_refl).
  - now apply pdf_output_filepath_spec.
Qed.

Lemma string_append_cancel_r (c : string) : forall a b : string,
  a +:+ c = b +:+ c -> a = b.
Proof.
  induction a as [|x a IH]; intros [|y b] H.
  - reflexivity.
  - apply (f_equal Py.len) in H. rewrite !len_append in H.
    unfold Py.len in H. simpl String.length in H. lia.
  - apply (f_equal Py.len) in H. rewrite !len_append in H.
    unfold Py.len in H. simpl String.length in H. lia.
  - rewrite !string_append_cons in H. injection H as -> H. f_equal. now apply IH.
Qed.

(** [str(n)] of a natural number is its decimal notation. *)
Lemma str_nonneg (n : Z) :
  0 <= n -> Fmt.str n = NilEmpty.string_of_uint (N.to_uint (Z.to_N n)).
Proof.
  unfold Fmt.str. destruct n as [|p|p]; [reflexivity | | lia]. intros _. simpl.
  pose proof (Unsigned.to_uint_nonnil p) as Hnil.
  now destruct (Pos.to_uint p).
Qed.

Lemma read_zeros (k : nat) (d : Decimal.uint) :
  N.of_uint <$> NilEmpty.uint_of_string (Fmt.zeros k +:+ NilEmpty.string_of_uint d)
  = Some (N.of_uint d).
Proof.
  induction k as [|k IH]; simpl Fmt.zeros.
  - change ("" +:+ NilEmpty.string_of_uint d) with (NilEmpty.string_of_uint d).
    now rewrite NilEmpty.usu.
  - rewrite string_append_cons. simpl NilEmpty.uint_of_string.
    destruct (NilEmpty.uint_of_string _) as [d'|]; [|discriminate IH].
    simpl in IH |- *. exact IH.
Qed.

(** The number can be read back from the padded notation. *)
Lemma read_zero_padded (width n : Z) :
  0 <= n ->
  N.of_uint <$> NilEmpty.uint_of_string (Fmt.zero_padded width n) = Some (Z.to_N n).
Proof.
  intros Hn. unfold Fmt.zero_padded.
  destruct (Z.ltb_spec n 0) as [|_]; [lia|].
  rewrite Z.abs_eq by exact Hn. rewrite (str_nonneg n Hn).
  change ("" +:+ ?s) with s.
  now rewrite read_zeros, DecimalN.Unsigned.of_to.
Qed.

(** X20: the names of the recompressed files are different for different
    values of the counter, so no recompressed file overwrites another. *)
Theorem temp_output_file_injective (temp_dir : string) (index_length m n : Z) :
  0 <= m -> 0 <= n ->
  temp_output_file temp_dir index_length m = temp_output_file temp_dir index_length n ->
  m = n.
Proof.
  intros Hm Hn. unfold temp_output_file, Fmt.join.
  change ("page" +:+ ?s) with (String "p" ("age" +:+ s)). cbv iota beta.
  intros Heq.
  assert (Hpadded : Fmt.zero_padded index_length m = Fmt.zero_padded index_length n).
  { destruct (negb (Py.truthy temp_dir) || Fmt.ends_with_slash temp_dir).
    - apply string_append_cancel in Heq. injection Heq as Heq.
      change ("" +:+ ?s) with s in Heq.
      now apply string_append_cancel_r in Heq.
    - apply string_append_cancel in Heq. injection Heq as Heq.
      change ("" +:+ ?s) with s in Heq.
      now apply string_append_cancel_r in Heq. }
  pose proof (read_zero_padded index_length m Hm) as Hread.
  rewrite Hpadded, (read_zero_padded index_length n Hn) in Hread.
  injection Hread as Hread. lia.
Qed.

Lemma temp_output_file_injective_witness : 2 = 2.
Proof.
  apply (temp_output_file_injective "/tmp/tmpx1" 4 2 2); [lia | lia | reflexivity].
Defined.

(** ** The further properties in the small world *)

Lemma process_image_invalid_quality_witness :
  process_image (C := Demo.world) module_globals Demo.files "b.jpg" "/tmp/b.jpg" (PyInt 101)
  = Raise invalid_quality_error.
Proof.
  apply (process_image_invalid_quality (C := Demo.world)). right. lia.
Defined.

Lemma process_files_bookkeeping_witness :
  exists opened chosens : list string,
    sublist opened (input_files Demo.args)
    /\ image_files Demo.final_state = image_files Demo.start ++ chosens
    /\ chosen_in_order Demo.temp_dir 4 (input_file_counter Demo.start) opened chosens
    /\ input_file_counter Demo.final_state
       = input_file_counter Demo.start + Z.of_nat (length chosens).
Proof.
  apply (process_files_bookkeeping (C := Demo.world) module_globals Demo.temp_dir 4
           (input_files Demo.args) Demo.start Demo.final_state).
  vm_compute. reflexivity.
Defined.

Lemma process_files_forced_witness :
  image_files Demo.forced_state
  = image_files Demo.start
    ++ map (temp_output_file Demo.temp_dir 4)
         (seqZ (input_file_counter Demo.start)
            (input_file_counter Demo.forced_state - input_file_counter Demo.start)).
Proof.
  apply (process_files_forced (C := Demo.world) Demo.forced Demo.temp_dir 4
           (input_files Demo.args) Demo.start Demo.forced_state).
  - reflexivity.
  - vm_compute. reflexivity.
Defined.

Lemma process_files_raises_witness :
  PermissionError <> FileNotFoundError /\ PermissionError <> UnidentifiedImageError.
Proof.
  apply (process_files_raises (C := Demo.guarded_world) module_globals Demo.temp_dir 4
           ["a.png"; "locked.jpg"; "b.jpg"] Demo.guarded_start Demo.guarded_printed
           PermissionError).
  vm_compute. reflexivity.
Defined.

Lemma process_image_returns_witness :
  (exists q : Z, PyInt 75 = PyInt q /\ 1 <= q <= 100)
  /\ exists (image : Image) (options : save_options),
       Image_open (Collaborators := Demo.world) Demo.files "b.jpg" = Return image
       /\ save_fp options = temp_output_file Demo.temp_dir 4 1
       /\ Image_save (Collaborators := Demo.world) Demo.files
            (to_true_colour (C := Demo.world) image) options
          = Return Demo.files_after_b.
Proof.
  apply (process_image_returns (C := Demo.world) module_globals Demo.files
           Demo.files_after_b "b.jpg" (temp_output_file Demo.temp_dir 4 1) (PyInt 75)).
  vm_compute. reflexivity.
Defined.

Lemma post_process_needs_media_box_witness :
  exists (page : gmap string pdfobj) (box : list pdfobj),
    pages Demo.document !! 0%nat = Some page
    /\ page !! "/MediaBox" = Some (PdfArray box)
    /\ (4 <= length box)%nat.
Proof.
  apply (post_process_needs_media_box Demo.options Demo.document Demo.labelled).
  vm_compute. reflexivity.
Defined.

Lemma post_process_frame_witness :
  pages Demo.labelled = pages Demo.document
  /\ forall key : string,
       key <> "/PageLabels" -> key <> "/OpenAction" ->
       Root Demo.labelled !! key = Root Demo.document !! key.
Proof.
  apply (post_process_frame Demo.options Demo.document Demo.labelled).
  vm_compute. reflexivity.
Defined.

Lemma post_process_idempotent_witness :
  post_process Demo.options Demo.labelled = Return Demo.labelled.
Proof.
  apply (post_process_idempotent Demo.options Demo.document Demo.labelled).
  vm_compute. reflexivity.
Defined.

Lemma main_configuration_error_witness :
  main (C := Demo.world) Demo.conflicting_args Demo.temp_dir Demo.files
  = {| trace := [stderr "jpeg2pdf.py: error: only one magnification setting can be specified"];
       how := quit |}
  /\ length [stderr "jpeg2pdf.py: error: only one magnification setting can be specified"]
     = 1%nat.
Proof.
  apply (main_configuration_error (C := Demo.world) Demo.conflicting_args).
  reflexivity.
Defined.

Lemma accepted_settings_witness :
  1 <= jpeg_compression_quality (globals Demo.options) <= 100
  /\ 1 <= first_page Demo.options
  /\ recompress_all_jpegs (globals Demo.options) = false
  /\ the_magnification Demo.options = head (magnification Demo.args)
  /\ (length (magnification Demo.args) <= 1)%nat
  /\ (length (page_mode Demo.args) <= 1)%nat.
Proof.
  apply (accepted_settings (C := Demo.world) Demo.args Demo.options). reflexivity.
Defined.

